(** * contact/models.py: the Contact model and its customer_id policy

    A shallow embedding of [src/contact/models.py].  The file follows the
    source from top to bottom: the Python primitives the model relies on
    ([int], [str], truthiness, exceptions), the choice tuples, the
    [Contact] record with one field per column, the query
    [filter(..).exclude(..).order_by('-customer_id').first()], the method
    [get_default_customer_id] and the overridden [save].

    Strings are ASCII strings; a [CharField] is ordered by code point
    (the "C" collation). *)

From Stdlib Require Import ZArith Lia Ascii String List Bool.
From Stdlib Require Import Sorted Permutation.
From stdpp Require Import base strings gmap.
Import ListNotations.

Local Open Scope Z_scope.

(** ** Python primitives *)

Module Python.

(** The exception classes that occur in the model. *)
Inductive exn : Type :=
| AttributeError
| ValueError
| ValidationError
| TypeError
| IntegrityError
| DataError.

(** The result of evaluating an expression: a value, or a raised
    exception. *)
Inductive outcome (A : Type) : Type :=
| Ok (a : A)
| Raise (e : exn).
Arguments Ok {A} a.
Arguments Raise {A} e.

Definition bind {A B} (m : outcome A) (k : A -> outcome B) : outcome B :=
  match m with
  | Ok a => k a
  | Raise e => Raise e
  end.

(** [try: body except AttributeError: handler]. *)
Definition try_except_AttributeError {A} (body handler : outcome A)
  : outcome A :=
  match body with
  | Raise AttributeError => handler
  | other => other
  end.

(** [Py_ISSPACE]: tab, line feed, vertical tab, form feed, carriage
    return and space. *)
Definition is_space (c : ascii) : bool :=
  let n := N_of_ascii c in
  ((9 <=? n) && (n <=? 13) || (n =? 32))%N.

Definition is_digit (c : ascii) : bool :=
  let n := N_of_ascii c in
  ((48 <=? n) && (n <=? 57))%N.

Definition is_underscore (c : ascii) : bool := (N_of_ascii c =? 95)%N.

Definition digit_value (c : ascii) : Z := Z.of_N (N_of_ascii c) - 48.

Fixpoint skip_spaces (s : string) : string :=
  match s with
  | String c r => if is_space c then skip_spaces r else s
  | EmptyString => s
  end.

Fixpoint all_spaces (s : string) : bool :=
  match s with
  | String c r => is_space c && all_spaces r
  | EmptyString => true
  end.

(** The digit scan of [PyLong_FromString] in base 10: digits, with
    single underscores between them.  [prev_us] records that the
    previous character was an underscore; [acc] is the value read so
    far.  The scan stops at the first character that is neither, and
    returns the value and the unread rest. *)
Fixpoint scan_digits (prev_us : bool) (acc : Z) (s : string)
  : option (Z * string) :=
  match s with
  | EmptyString => if prev_us then None else Some (acc, s)
  | String c r =>
      if is_digit c then scan_digits false (10 * acc + digit_value c) r
      else if is_underscore c then
             if prev_us then None else scan_digits true acc r
      else if prev_us then None else Some (acc, s)
  end.

Definition split_sign (s : string) : bool * string :=
  match s with
  | String c r =>
      if (N_of_ascii c =? 43)%N then (false, r)
      else if (N_of_ascii c =? 45)%N then (true, r)
      else (false, s)
  | EmptyString => (false, s)
  end.

(** [int(s)] for an ASCII string [s]: leading white space, an optional
    sign, the digits, trailing white space; anything else raises
    [ValueError].  Python also reads the decimal digits and the blanks
    of other scripts; where a statement applies [int] to a string that
    is not known to be written by [str], it assumes [ascii_only]. *)
Definition int (s : string) : outcome Z :=
  let '(neg, body) := split_sign (skip_spaces s) in
  match body with
  | String c r =>
      if is_digit c then
        match scan_digits false (digit_value c) r with
        | Some (n, rest) =>
            if all_spaces rest then Ok (if neg then - n else n)
            else Raise ValueError
        | None => Raise ValueError
        end
      else Raise ValueError
  | EmptyString => Raise ValueError
  end.

Definition digit_char (d : Z) : ascii := ascii_of_N (Z.to_N (48 + d)).

(** The decimal digits of [n >= 0], most significant first, written in
    front of [acc]. *)
Fixpoint str_digits (fuel : nat) (n : Z) (acc : string) : string :=
  match fuel with
  | O => acc
  | S fuel' =>
      let acc' := String (digit_char (n mod 10)) acc in
      if n <? 10 then acc' else str_digits fuel' (n / 10) acc'
  end.

Definition str_nonneg (n : Z) : string :=
  str_digits (S (Z.to_nat (Z.log2 n))) n EmptyString.

(** [str(n)] for an integer [n]. *)
Definition str (n : Z) : string :=
  if n <? 0 then String "-"%char (str_nonneg (- n)) else str_nonneg n.

(** [not x] for a value that is [None] or a string. *)
Definition falsy (x : option string) : bool :=
  match x with
  | None => true
  | Some s => (s =? "")%string
  end.

End Python.

Import Python.


(** ** Choice tuples (models.py, lines 11-51) *)

Definition TITLE_CHOICES : list (string * string) :=
  [("mr", "Mr."); ("ms", "Ms."); ("mrs", "Mrs."); ("miss", "Miss");
   ("family", "Family")].

Definition CONTACT_TYPE_CHOICES : list (string * string) :=
  [("customer", "Customer"); ("supplier", "Supplier");
   ("producer", "Producer"); ("personnel", "Personnel")].

Definition CUSTOMER_TYPE_CHOICES : list (string * string) :=
  [("customer", "Customer"); ("company", "Company"); ("public", "Public")].

Definition ADDRESS_TYPE_CHOICES : list string :=
  ["home"; "billing"; "business"; "delivery"; "mailing"].

Definition PHONE_TYPE_CHOICES : list string :=
  ["office"; "mobile"; "home"; "fax"].

Definition EMAIL_TYPE_CHOICES : list string :=
  ["office"; "private"; "other"].

(** ** The Contact model (models.py, lines 54-114) *)

(** A UUID is its 128-bit integer value. *)
Definition UUID : Type := N.

(** A point in time, in microseconds since the epoch. *)
Definition datetime : Type := Z.

(** One element of an [ArrayField(HStoreField())]: string keys, each
    with a string or a null. *)
Abbreviation HStore := (gmap string (option string)).

(** One field per column.  A column declared without [null=True] has a
    type without [None]; [pk] is the automatic primary key [id], [None]
    until the first insert; [edit_date] is [None] until the first
    save. *)
Record Contact : Type := {
  pk : option nat;
  uuid : UUID;
  core_user_uuid : option UUID;
  customer_id : option string;
  first_name : string;
  middle_name : string;
  last_name : string;
  title : option string;
  suffix : string;
  contact_type : option string;
  customer_type : option string;
  company : option string;
  addresses : option (list HStore);
  siteprofile_uuids : option (list UUID);
  emails : option (list HStore);
  phones : option (list HStore);
  notes : option string;
  organization_uuid : option string;
  workflowlevel1_uuids : list string;
  workflowlevel2_uuids : option (list string);
  create_date : datetime;
  edit_date : option datetime
}.

(** Attribute assignments [self.customer_id = v], [self.edit_date = v]
    and [self.pk = v]. *)
Definition set_customer_id (v : option string) (c : Contact) : Contact :=
  {| pk := pk c; uuid := uuid c; core_user_uuid := core_user_uuid c;
     customer_id := v;
     first_name := first_name c; middle_name := middle_name c;
     last_name := last_name c; title := title c; suffix := suffix c;
     contact_type := contact_type c; customer_type := customer_type c;
     company := company c; addresses := addresses c;
     siteprofile_uuids := siteprofile_uuids c; emails := emails c;
     phones := phones c; notes := notes c;
     organization_uuid := organization_uuid c;
     workflowlevel1_uuids := workflowlevel1_uuids c;
     workflowlevel2_uuids := workflowlevel2_uuids c;
     create_date := create_date c; edit_date := edit_date c |}.

Definition set_edit_date (v : option datetime) (c : Contact) : Contact :=
  {| pk := pk c; uuid := uuid c; core_user_uuid := core_user_uuid c;
     customer_id := customer_id c;
     first_name := first_name c; middle_name := middle_name c;
     last_name := last_name c; title := title c; suffix := suffix c;
     contact_type := contact_type c; customer_type := customer_type c;
     company := company c; addresses := addresses c;
     siteprofile_uuids := siteprofile_uuids c; emails := emails c;
     phones := phones c; notes := notes c;
     organization_uuid := organization_uuid c;
     workflowlevel1_uuids := workflowlevel1_uuids c;
     workflowlevel2_uuids := workflowlevel2_uuids c;
     create_date := create_date c; edit_date := v |}.

Definition set_pk (v : option nat) (c : Contact) : Contact :=
  {| pk := v; uuid := uuid c; core_user_uuid := core_user_uuid c;
     customer_id := customer_id c;
     first_name := first_name c; middle_name := middle_name c;
     last_name := last_name c; title := title c; suffix := suffix c;
     contact_type := contact_type c; customer_type := customer_type c;
     company := company c; addresses := addresses c;
     siteprofile_uuids := siteprofile_uuids c; emails := emails c;
     phones := phones c; notes := notes c;
     organization_uuid := organization_uuid c;
     workflowlevel1_uuids := workflowlevel1_uuids c;
     workflowlevel2_uuids := workflowlevel2_uuids c;
     create_date := create_date c; edit_date := edit_date c |}.

(** [Contact(uuid=u, workflowlevel1_uuids=w)] built at time [now]: the
    declared defaults.  [default=timezone.now] fills [create_date] when
    the instance is built; a [CharField] without [null=True] defaults to
    the empty string. *)
Definition new_Contact (now : datetime) (u : UUID) (w : list string)
  : Contact :=
  {| pk := None; uuid := u; core_user_uuid := None;
     customer_id := None;
     first_name := ""; middle_name := ""; last_name := "";
     title := None; suffix := "";
     contact_type := None; customer_type := None;
     company := None; addresses := None;
     siteprofile_uuids := None; emails := None; phones := None;
     notes := None; organization_uuid := None;
     workflowlevel1_uuids := w; workflowlevel2_uuids := None;
     create_date := now; edit_date := None |}.

Arguments new_Contact now%_Z u%_N w.

(** ** The table and the query of get_default_customer_id *)

(** The table behind [Contact.objects]: its rows, each with a primary
    key. *)
Abbreviation Table := (list Contact).

Definition option_string_eqb (a b : option string) : bool :=
  match a, b with
  | Some x, Some y => (x =? y)%string
  | None, None => true
  | _, _ => false
  end.

(** [.filter(organization_uuid=o)]: equality of the column with [o]; for
    [o = None] the lookup is [IS NULL]. *)
Definition filter_organization_uuid (o : option string) (t : Table)
  : Table :=
  List.filter (fun r => option_string_eqb (organization_uuid r) o) t.

(** [.exclude(customer_id=None)]. *)
Definition exclude_customer_id_None (t : Table) : Table :=
  List.filter (fun r => negb (option_string_eqb (customer_id r) None)) t.

(** The order of the [customer_id] column: strings by code point, a
    null above every string. *)
Definition customer_id_leb (a b : option string) : bool :=
  match a, b with
  | _, None => true
  | None, Some _ => false
  | Some x, Some y => String.leb x y
  end.

Fixpoint insert_desc (x : Contact) (l : Table) : Table :=
  match l with
  | [] => [x]
  | y :: l' =>
      if customer_id_leb (customer_id y) (customer_id x) then x :: l
      else y :: insert_desc x l'
  end.

(** [.order_by('-customer_id')]: the rows in descending order of
    [customer_id]. *)
Fixpoint order_by_desc_customer_id (t : Table) : Table :=
  match t with
  | [] => []
  | x :: t' => insert_desc x (order_by_desc_customer_id t')
  end.

(** [.first()]: the first row, or [None]. *)
Definition first (t : Table) : option Contact := hd_error t.

(** [row.customer_id] for the result of [first()]: [None] has no such
    attribute. *)
Definition getattr_customer_id (row : option Contact)
  : outcome (option string) :=
  match row with
  | Some r => Ok (customer_id r)
  | None => Raise AttributeError
  end.

(** [int(v)] for a column value: [int(None)] raises [TypeError]. *)
Definition int_of_value (v : option string) : outcome Z :=
  match v with
  | Some s => int s
  | None => Raise TypeError
  end.

(** [m] is a row of [l] whose [customer_id] no row of [l] exceeds. *)
Definition greatest_in (m : Contact) (l : Table) : Prop :=
  In m l
  /\ forall r, In r l ->
       customer_id_leb (customer_id r) (customer_id m) = true.

(** The row that [get_default_customer_id] reads: the first of the
    same-organization rows with a [customer_id], greatest first. *)
Definition latest_row (self : Contact) (objects : Table) : option Contact :=
  first (order_by_desc_customer_id
           (exclude_customer_id_None
              (filter_organization_uuid (organization_uuid self) objects))).

(** ** Contact.get_default_customer_id (models.py, lines 119-129) *)

Definition get_default_customer_id (self : Contact) (objects : Table)
  : outcome string :=
  bind
    (try_except_AttributeError
       (bind (getattr_customer_id (latest_row self objects))
          (fun latest_customer_id =>
             bind (int_of_value latest_customer_id)
               (fun n => Ok (n + 1))))
       (let start_index := 10001 in Ok start_index))
    (fun next_customer_id => Ok (str next_customer_id)).

(** ** The storage layer behind super().save() *)

(** What the table enforces on a row, from the field declarations: the
    [max_length] of every [CharField] (also inside an [ArrayField]).
    The columns without [null=True] cannot hold [None] by their type.
    A value longer than its column is refused here; PostgreSQL cuts one
    whose excess is blanks only down to the column and stores it, a case
    this check leaves out. *)
Definition within (n : nat) (s : string) : bool :=
  (String.length s <=? n)%nat.

Definition within_opt (n : nat) (v : option string) : bool :=
  match v with
  | Some s => within n s
  | None => true
  end.

Definition column_constraints (c : Contact) : bool :=
  within_opt 32 (customer_id c)
  && within 50 (first_name c)
  && within 50 (middle_name c)
  && within 50 (last_name c)
  && within_opt 16 (title c)
  && within 50 (suffix c)
  && within_opt 30 (contact_type c)
  && within_opt 30 (customer_type c)
  && within_opt 100 (company c)
  && within_opt 36 (organization_uuid c)
  && forallb (within 36) (workflowlevel1_uuids c)
  && match workflowlevel2_uuids c with
     | Some l => forallb (within 36) l
     | None => true
     end.

Definition has_pk (k : nat) (r : Contact) : bool :=
  match pk r with
  | Some j => (j =? k)%nat
  | None => false
  end.

(** [uuid] is declared [unique=True]. *)
Definition uuid_taken (u : UUID) (t : Table) : bool :=
  existsb (fun r => (uuid r =? u)%N) t.

(** The key that the table's sequence hands out, taken as one that no
    row has; the value the sequence would really give is not modelled. *)
Definition next_pk (t : Table) : nat :=
  S (list_max (map (fun r => match pk r with Some k => k | None => O end) t)).

(** [INSERT]: the row is appended unless a column is too long
    ([DataError]) or its [uuid] is already in the table
    ([IntegrityError]). *)
Definition sql_insert (row : Contact) (t : Table) : outcome Table :=
  if negb (column_constraints row) then Raise DataError
  else if uuid_taken (uuid row) t then Raise IntegrityError
  else Ok (t ++ [row]).

(** [UPDATE .. WHERE id = k]: the row with key [k] is replaced, under
    the same checks against the other rows. *)
Definition sql_update (k : nat) (row : Contact) (t : Table) : outcome Table :=
  if negb (column_constraints row) then Raise DataError
  else if uuid_taken (uuid row) (List.filter (fun r => negb (has_pk k r)) t)
       then Raise IntegrityError
  else Ok (map (fun r => if has_pk k r then row else r) t).

(** What a call of [save] leaves behind: whether it returned or raised,
    the instance [self] after the call, and the table after the call. *)
Record saved : Type := {
  result : outcome unit;
  instance : Contact;
  objects : Table
}.

Definition commit (self : Contact) (old : Table) (r : outcome Table)
  (row : Contact) : saved :=
  match r with
  | Ok t => {| result := Ok tt; instance := row; objects := t |}
  | Raise e => {| result := Raise e; instance := self; objects := old |}
  end.

(** [models.Model.save()], called without keyword arguments:
    [auto_now] sets [edit_date] on the instance, then the row with the
    instance's key is updated; an instance without a key, or whose key
    is not in the table, is inserted. *)
Definition Model_save (now : datetime) (self : Contact) (t : Table) : saved :=
  let self := set_edit_date (Some now) self in
  match pk self with
  | Some k =>
      if existsb (has_pk k) t then commit self t (sql_update k self t) self
      else commit self t (sql_insert self t) self
  | None =>
      let row := set_pk (Some (next_pk t)) self in
      commit self t (sql_insert row t) row
  end.

(** ** Contact.save (models.py, lines 131-134) *)

(** [save(self)], at the time [now], on the table [t]; the keyword
    arguments that the source passes on to [Model.save] are empty. *)
Definition save (now : datetime) (self : Contact) (t : Table) : saved :=
  if falsy (customer_id self) then
    match get_default_customer_id self t with
    | Ok cid => Model_save now (set_customer_id (Some cid) self) t
    | Raise e => {| result := Raise e; instance := self; objects := t |}
    end
  else Model_save now self t.

(** ** The validators of addresses, emails and phones *)

(** [contact/validators.py], imported in line 8, is not among the
    sources; [validate_addresses], [validate_emails] and
    [validate_phones] follow the spec: each entry is checked against a
    fixed schema and the allowed type enumeration. *)

(** Modelled from the spec: the keys that [validate_addresses]
    requires, as the [help_text] of [addresses] lists them. *)
Definition ADDRESS_KEYS : list string :=
  ["type"; "street"; "house_number"; "postal_code"; "city"; "country"].

(** Modelled from the spec: the keys that [validate_emails] requires,
    as the [help_text] of [emails] lists them. *)
Definition EMAIL_KEYS : list string := ["type"; "email"].

(** Modelled from the spec: the keys that [validate_phones] requires,
    as the [help_text] of [phones] lists them. *)
Definition PHONE_KEYS : list string := ["type"; "number"].

Definition has_key (e : HStore) (k : string) : bool :=
  match e !! k with
  | Some _ => true
  | None => false
  end.

Definition allowed_type (choices : list string) (e : HStore) : bool :=
  match e !! "type" with
  | Some (Some ty) => existsb (String.eqb ty) choices
  | _ => false
  end.

(** Modelled from the spec: an entry of [validators.py] is valid when
    no required key is missing and its [type] is an allowed choice. *)
Definition valid_entry (keys choices : list string) (e : HStore) : bool :=
  forallb (has_key e) keys && allowed_type choices e.

(** Modelled from the spec: a validator of [validators.py] raises a
    [ValidationError] unless every entry of the value is valid. *)
Definition validate_entries (keys choices : list string)
  (value : list HStore) : outcome unit :=
  if forallb (valid_entry keys choices) value then Ok tt
  else Raise ValidationError.

(** Modelled from the spec: [validators.validate_addresses], over
    [ADDRESS_TYPE_CHOICES]. *)
Definition validate_addresses : list HStore -> outcome unit :=
  validate_entries ADDRESS_KEYS ADDRESS_TYPE_CHOICES.

(** Modelled from the spec: [validators.validate_emails], over
    [EMAIL_TYPE_CHOICES]. *)
Definition validate_emails : list HStore -> outcome unit :=
  validate_entries EMAIL_KEYS EMAIL_TYPE_CHOICES.

(** Modelled from the spec: [validators.validate_phones], over
    [PHONE_TYPE_CHOICES]. *)
Definition validate_phones : list HStore -> outcome unit :=
  validate_entries PHONE_KEYS PHONE_TYPE_CHOICES.

(** A field's validators run on its value unless the field is
    [blank=True] and the value is empty ([None] or the empty list). *)
Definition run_validators (validator : list HStore -> outcome unit)
  (value : option (list HStore)) : outcome unit :=
  match value with
  | None => Ok tt
  | Some [] => Ok tt
  | Some l => validator l
  end.

(** The part of [Model.clean_fields()] that runs the validators attached
    in models.py.  It is what callers run before [save]; [save] does not
    call it. *)
Definition clean_fields (self : Contact) : outcome unit :=
  bind (run_validators validate_addresses (addresses self)) (fun _ =>
  bind (run_validators validate_emails (emails self)) (fun _ =>
  run_validators validate_phones (phones self))).

(** An entry with a missing key of its structure, or whose [type] is not
    an allowed choice. *)
Definition invalid_entry (keys choices : list string) (e : HStore) : Prop :=
  (exists k, In k keys /\ e !! k = None)
  \/ (forall ty, e !! "type" = Some (Some ty) -> ~ In ty choices).

Definition has_invalid_entry (self : Contact) : Prop :=
  (exists l e, addresses self = Some l /\ In e l
               /\ invalid_entry ADDRESS_KEYS ADDRESS_TYPE_CHOICES e)
  \/ (exists l e, emails self = Some l /\ In e l
                  /\ invalid_entry EMAIL_KEYS EMAIL_TYPE_CHOICES e)
  \/ (exists l e, phones self = Some l /\ In e l
                  /\ invalid_entry PHONE_KEYS PHONE_TYPE_CHOICES e).

(** ** Table states and the uniqueness of customer_id *)

(** The tables that sequential calls of [save] build from the empty
    table. *)
Inductive reachable : Table -> Prop :=
| reachable_empty : reachable []
| reachable_save (now : datetime) (self : Contact) (t : Table) :
    reachable t -> reachable (objects (save now self t)).

(** Two distinct rows of one organization with a [customer_id] have
    different ones. *)
Definition unique_customer_ids (t : Table) : Prop :=
  forall (i j : nat) (ri rj : Contact),
    i <> j ->
    nth_error t i = Some ri ->
    nth_error t j = Some rj ->
    organization_uuid ri = organization_uuid rj ->
    customer_id ri <> None ->
    customer_id rj <> None ->
    customer_id ri <> customer_id rj.

(** Every row has a key and no two rows share one. *)
Definition keyed (t : Table) : Prop :=
  Forall (fun r => pk r <> None) t /\ List.NoDup (map pk t).

(** The same-organization rows with a [customer_id]. *)
Definition organization_ids (self : Contact) (t : Table) : list string :=
  omap customer_id
    (filter_organization_uuid (organization_uuid self) t).

(** The [customer_id] that the query selects is numeric and no
    [customer_id] of the organization is numerically above it. *)
Definition numeric_order_agrees (self : Contact) (t : Table) : Prop :=
  forall m, latest_row self t = Some m ->
    exists b, int_of_value (customer_id m) = Ok b
      /\ forall s, In s (organization_ids self t) ->
           exists a, int s = Ok a /\ a <= b.

(** A string that [int] accepts. *)
Definition numeric (s : string) : Prop := exists n, int s = Ok n.

(** The rows that a write of [row] is checked against: all rows but the
    one with its key. *)
Definition other_rows (row : Contact) (t : Table) : Table :=
  match pk row with
  | Some k => List.filter (fun r => negb (has_pk k r)) t
  | None => t
  end.

(** The table takes [row]: its columns fit and no other row has its
    [uuid]. *)
Definition storage_accepts (row : Contact) (t : Table) : bool :=
  column_constraints row && negb (uuid_taken (uuid row) (other_rows row t)).

(** After a call of [save]: the instance has a key, it is a row of the
    table, and it is the only row with that key. *)
Definition stored (s : saved) : Prop :=
  pk (instance s) <> None
  /\ In (instance s) (objects s)
  /\ forall r, In r (objects s) -> pk r = pk (instance s) -> r = instance s.

(** ** Sample data *)

(** A new instance (no key yet) with the given [uuid], organization and
    [customer_id], built at time 0. *)
Definition sample_new (u : UUID) (org cid : option string) : Contact :=
  {| pk := None; uuid := u; core_user_uuid := None;
     customer_id := cid;
     first_name := "Ada"; middle_name := ""; last_name := "Kupfer";
     title := Some "ms"; suffix := "";
     contact_type := Some "customer"; customer_type := None;
     company := None; addresses := None;
     siteprofile_uuids := None; emails := None; phones := None;
     notes := None; organization_uuid := org;
     workflowlevel1_uuids := ["wfl1"]; workflowlevel2_uuids := None;
     create_date := 0; edit_date := None |}.

Arguments sample_new u%_N org cid.

(** The same as a row of the table, with key [k] and [uuid] [k]. *)
Definition sample_row (k : nat) (org cid : option string) : Contact :=
  set_pk (Some k) (sample_new (N.of_nat k) org cid).

(** Organization "org-a" with the ids "9" and "10". *)
Definition table_9_10 : Table :=
  [sample_row 1 (Some "org-a") (Some "9");
   sample_row 2 (Some "org-a") (Some "10")].

(** Organization "org-b" with the id "777", and a row of "org-a" that
    has no id. *)
Definition table_other : Table :=
  [sample_row 1 (Some "org-b") (Some "777");
   sample_row 2 (Some "org-a") None].

(** Organization "org-a" with the legacy id "K-17" next to "10001". *)
Definition table_legacy : Table :=
  [sample_row 1 (Some "org-a") (Some "10001");
   sample_row 2 (Some "org-a") (Some "K-17")].

(** Organization "org-a" after the automatic ids have passed from five
    to six digits. *)
Definition table_rollover : Table :=
  [sample_row 1 (Some "org-a") (Some "99998");
   sample_row 2 (Some "org-a") (Some "99999");
   sample_row 3 (Some "org-a") (Some "100000")].

(** An email entry whose [type] is not in [EMAIL_TYPE_CHOICES]. *)
Definition pigeon_email : HStore :=
  {[ "type" := Some "pigeon"; "email" := Some "ada@example.org" ]}.

Definition set_emails (v : option (list HStore)) (c : Contact) : Contact :=
  {| pk := pk c; uuid := uuid c; core_user_uuid := core_user_uuid c;
     customer_id := customer_id c;
     first_name := first_name c; middle_name := middle_name c;
     last_name := last_name c; title := title c; suffix := suffix c;
     contact_type := contact_type c; customer_type := customer_type c;
     company := company c; addresses := addresses c;
     siteprofile_uuids := siteprofile_uuids c; emails := v;
     phones := phones c; notes := notes c;
     organization_uuid := organization_uuid c;
     workflowlevel1_uuids := workflowlevel1_uuids c;
     workflowlevel2_uuids := workflowlevel2_uuids c;
     create_date := create_date c; edit_date := edit_date c |}.

Definition pigeon_contact : Contact :=
  set_emails (Some [pigeon_email]) (sample_new 7 (Some "org-a") None).

(** Two saves into the empty table, both with the explicit id "5" in
    organization "org-a". *)
Definition table_twice_5 : Table :=
  objects (save 2 (sample_new 2 (Some "org-a") (Some "5"))
    (objects (save 1 (sample_new 1 (Some "org-a") (Some "5")) []))).

(** ** Contact.__str__ (models.py, lines 116-117) *)

(** The f-string [f"{self.first_name} {self.last_name}"]. *)
Definition __str__ (self : Contact) : string :=
  String.append (first_name self) (String.append " " (last_name self)).

(** ** Digit strings *)



(** ** The fields that save leaves alone *)

(** [a] and [b] agree on every field but [pk], [customer_id] and
    [edit_date]. *)
Definition same_data (a b : Contact) : Prop :=
  uuid a = uuid b
  /\ core_user_uuid a = core_user_uuid b
  /\ first_name a = first_name b
  /\ middle_name a = middle_name b
  /\ last_name a = last_name b
  /\ title a = title b
  /\ suffix a = suffix b
  /\ contact_type a = contact_type b
  /\ customer_type a = customer_type b
  /\ company a = company b
  /\ addresses a = addresses b
  /\ siteprofile_uuids a = siteprofile_uuids b
  /\ emails a = emails b
  /\ phones a = phones b
  /\ notes a = notes b
  /\ organization_uuid a = organization_uuid b
  /\ workflowlevel1_uuids a = workflowlevel1_uuids b
  /\ workflowlevel2_uuids a = workflowlevel2_uuids b
  /\ create_date a = create_date b.

(** The order that [order_by('-customer_id')] asks for: [a] may stand
    before [b]. *)
Definition descending (a b : Contact) : Prop :=
  customer_id_leb (customer_id b) (customer_id a) = true.

(** ** More sample data *)


(** Organization "org-a" whose greatest id fills the 32 characters of
    the column. *)
Definition table_nines : Table :=
  [sample_row 1 (Some "org-a") (Some "99999999999999999999999999999999")].

(** ** ASCII strings *)

(** Every character of [s] is below 128. *)
Fixpoint ascii_only (s : string) : bool :=
  match s with
  | String c r => (N_of_ascii c <? 128)%N && ascii_only r
  | EmptyString => true
  end.

(** ** Sample data for the restated properties *)

(** Organization "org-a" with the ids "9" and "10", between rows of
    "org-b" whose ids are greater in both orders. *)
Definition table_mixed : Table :=
  [sample_row 1 (Some "org-b") (Some "777");
   sample_row 2 (Some "org-a") (Some "9");
   sample_row 3 (Some "org-b") (Some "A-1");
   sample_row 4 (Some "org-a") (Some "10")].

(** The rows of "org-a" in [table_mixed], alone. *)
Definition table_9_10_late : Table :=
  [sample_row 2 (Some "org-a") (Some "9");
   sample_row 4 (Some "org-a") (Some "10")].

(** An explicit id of 33 characters, none of them a blank. *)
Definition id_33 : string := "ABCDEFGHIJKLMNOPQRSTUVWXYZ0123456".

(** The table after one Contact, built at time 0, was saved at time
    100. *)
Definition table_saved_once : Table :=
  objects (save 100 (sample_new 1 (Some "org-a") None) []).

(** [Contact(pk=1, uuid=.., workflowlevel1_uuids=..)], built at time
    150: another instance under the key of the stored row. *)
Definition same_key_instance : Contact :=
  set_pk (Some 1%nat) (new_Contact 150 1 ["wfl1"]).

(** ** Proof automation *)

(** In a goal about a write that returned, drop the branches in which
    the table refused the row. *)
Ltac sql_accepted :=
  match goal with
  | |- context [negb (column_constraints ?r)] =>
      destruct (negb (column_constraints r)); [discriminate|]
  end;
  match goal with
  | |- context [uuid_taken ?u ?l] =>
      destruct (uuid_taken u l); [discriminate|]
  end;
  simpl; intros _.

(** The rewrite rules for the fields that the setters leave alone. *)
Create Rewrite HintDb contact_fields.

(** * Facts about the Python primitives *)

Example int_10001 : int "10001" = Ok 10001.
Proof. reflexivity. Qed.

Example int_padded : int "  +1_000 " = Ok 1000.
Proof. reflexivity. Qed.

Example int_negative : int "-42" = Ok (-42).
Proof. reflexivity. Qed.

Example int_legacy : int "K-17" = Raise ValueError.
Proof. reflexivity. Qed.

Example int_empty : int "" = Raise ValueError.
Proof. reflexivity. Qed.

Example int_trailing_underscore : int "1_" = Raise ValueError.
Proof. reflexivity. Qed.

Example str_10002 : str 10002 = "10002"%string.
Proof. reflexivity. Qed.

Example str_zero : str 0 = "0"%string.
Proof. reflexivity. Qed.

Example str_negative : str (-305) = "-305"%string.
Proof. reflexivity. Qed.

Section StringOrder.

Lemma ascii_compare_refl (a : ascii) : Ascii.compare a a = Eq.
Proof. unfold Ascii.compare. apply N.compare_refl. Qed.

Lemma string_leb_cons (a b : ascii) (s s' : string) :
  String.leb (String a s) (String b s')
  = match Ascii.compare a b with
    | Lt => true
    | Eq => String.leb s s'
    | Gt => false
    end.
Proof.
  unfold String.leb. simpl. destruct (Ascii.compare a b); reflexivity.
Qed.

Lemma string_leb_refl (s : string) : String.leb s s = true.
Proof.
  induction s as [|a s IH]; [reflexivity|].
  rewrite string_leb_cons, ascii_compare_refl. exact IH.
Qed.

Lemma string_leb_trans (s1 s2 s3 : string) :
  String.leb s1 s2 = true -> String.leb s2 s3 = true ->
  String.leb s1 s3 = true.
Proof.
  revert s2 s3.
  induction s1 as [|a s1 IH]; intros [|b s2] [|c s3]; try easy.
  rewrite !string_leb_cons. unfold Ascii.compare.
  destruct (N.compare_spec (N_of_ascii a) (N_of_ascii b)) as [Hab|Hab|Hab];
    destruct (N.compare_spec (N_of_ascii b) (N_of_ascii c)) as [Hbc|Hbc|Hbc];
    destruct (N.compare_spec (N_of_ascii a) (N_of_ascii c)) as [Hac|Hac|Hac];
    try easy; try lia.
  apply IH.
Qed.

Lemma customer_id_leb_refl (a : option string) : customer_id_leb a a = true.
Proof. destruct a; simpl; [apply string_leb_refl | reflexivity]. Qed.

Lemma customer_id_leb_total (a b : option string) :
  customer_id_leb a b = false -> customer_id_leb b a = true.
Proof.
  destruct a as [x|], b as [y|]; simpl; try easy.
  intros H. destruct (String.leb_total x y) as [H'|H']; congruence.
Qed.

Lemma customer_id_leb_trans (a b c : option string) :
  customer_id_leb a b = true -> customer_id_leb b c = true ->
  customer_id_leb a c = true.
Proof.
  destruct a as [x|], b as [y|], c as [z|]; simpl; try easy.
  apply string_leb_trans.
Qed.

End StringOrder.

(** * The query *)

Lemma option_string_eqb_eq (a b : option string) :
  option_string_eqb a b = true <-> a = b.
Proof.
  destruct a as [x|], b as [y|]; simpl; try easy.
  rewrite String.eqb_eq. split; congruence.
Qed.

Lemma not_None_eqb (a : option string) :
  negb (option_string_eqb a None) = true <-> a <> None.
Proof. destruct a; simpl; split; congruence. Qed.

Lemma first_insert_desc (x : Contact) (l : Table) :
  first (insert_desc x l) = Some x
  \/ exists y l', l = y :: l' /\ first (insert_desc x l) = Some y
       /\ customer_id_leb (customer_id y) (customer_id x) = false.
Proof.
  destruct l as [|y l']; simpl; [now left|].
  destruct (customer_id_leb (customer_id y) (customer_id x)) eqn:E.
  - now left.
  - right. exists y, l'. auto.
Qed.

Lemma insert_desc_head_le (x y : Contact) (l' : Table) :
  first (insert_desc x (y :: l')) = Some x ->
  customer_id_leb (customer_id y) (customer_id x) = true.
Proof.
  simpl. destruct (customer_id_leb (customer_id y) (customer_id x)) eqn:E;
    [reflexivity|].
  simpl. intros [= ->]. rewrite customer_id_leb_refl in E. discriminate.
Qed.

Lemma order_by_nil (l : Table) : order_by_desc_customer_id l = [] -> l = [].
Proof.
  destruct l as [|x l]; [reflexivity|]. simpl.
  destruct (order_by_desc_customer_id l) as [|y l']; simpl; [discriminate|].
  destruct (customer_id_leb (customer_id y) (customer_id x)); discriminate.
Qed.

Lemma first_order_by (l : Table) :
  match first (order_by_desc_customer_id l) with
  | Some m => greatest_in m l
  | None => l = []
  end.
Proof.
  induction l as [|x l IH]; [reflexivity|]. simpl.
  destruct (order_by_desc_customer_id l) as [|y s] eqn:Es.
  - apply order_by_nil in Es. subst l. simpl. split; [now left|].
    intros r [<-|[]]. apply customer_id_leb_refl.
  - simpl in IH. destruct IH as [Hy Hle]. simpl.
    destruct (customer_id_leb (customer_id y) (customer_id x)) eqn:E; simpl.
    + split; [now left|]. intros r [<-|Hr].
      * apply customer_id_leb_refl.
      * eapply customer_id_leb_trans; [apply Hle, Hr | exact E].
    + split; [now right|]. intros r [<-|Hr].
      * now apply customer_id_leb_total.
      * apply Hle, Hr.
Qed.

Lemma In_organization_ids (self : Contact) (t : Table) (s : string) :
  In s (organization_ids self t)
  <-> exists r, In r t
        /\ organization_uuid r = organization_uuid self
        /\ customer_id r = Some s.
Proof.
  unfold organization_ids, filter_organization_uuid.
  rewrite <- list_elem_of_In, list_elem_of_omap. split.
  - intros (r & Hr & Hs). apply list_elem_of_In, filter_In in Hr.
    destruct Hr as [Hr Ho]. apply option_string_eqb_eq in Ho. eauto.
  - intros (r & Hr & Ho & Hs). exists r. split; [|exact Hs].
    apply list_elem_of_In, filter_In. split; [exact Hr|].
    now apply option_string_eqb_eq.
Qed.

Lemma In_candidates (self : Contact) (t : Table) (r : Contact) :
  In r (exclude_customer_id_None
          (filter_organization_uuid (organization_uuid self) t))
  <-> In r t /\ organization_uuid r = organization_uuid self
      /\ customer_id r <> None.
Proof.
  unfold exclude_customer_id_None, filter_organization_uuid.
  rewrite !filter_In, not_None_eqb, option_string_eqb_eq. tauto.
Qed.

Lemma latest_row_None (self : Contact) (t : Table) :
  latest_row self t = None <-> organization_ids self t = [].
Proof.
  unfold latest_row.
  pose proof (first_order_by (exclude_customer_id_None
    (filter_organization_uuid (organization_uuid self) t))) as H.
  split.
  - intros E. rewrite E in H.
    destruct (organization_ids self t) as [|s l] eqn:Ei; [reflexivity|].
    assert (Hs : In s (organization_ids self t)) by (rewrite Ei; now left).
    apply In_organization_ids in Hs. destruct Hs as (r & Hr & Ho & Hs).
    assert (Hc : In r (exclude_customer_id_None
      (filter_organization_uuid (organization_uuid self) t))).
    { apply In_candidates. repeat split; auto. congruence. }
    rewrite H in Hc. destruct Hc.
  - intros Ei.
    destruct (first _) as [m|]; [|reflexivity].
    destruct H as [Hm _]. apply In_candidates in Hm.
    destruct Hm as (Hm & Ho & Hc).
    destruct (customer_id m) as [s|] eqn:Es; [|congruence].
    assert (Hs : In s (organization_ids self t)).
    { apply In_organization_ids. eauto. }
    rewrite Ei in Hs. destruct Hs.
Qed.

Lemma latest_row_Some (self : Contact) (t : Table) (m : Contact) :
  latest_row self t = Some m ->
  In m t /\ organization_uuid m = organization_uuid self
  /\ exists s, customer_id m = Some s
       /\ In s (organization_ids self t)
       /\ forall s', In s' (organization_ids self t) ->
            String.leb s' s = true.
Proof.
  unfold latest_row. intros E.
  pose proof (first_order_by (exclude_customer_id_None
    (filter_organization_uuid (organization_uuid self) t))) as H.
  rewrite E in H. destruct H as [Hm Hle].
  pose proof Hm as Hm'. apply In_candidates in Hm'.
  destruct Hm' as (Hin & Ho & Hc).
  repeat split; auto.
  destruct (customer_id m) as [s|] eqn:Es; [|congruence].
  exists s. split; [reflexivity|]. split.
  - apply In_organization_ids. eauto.
  - intros s' Hs'. apply In_organization_ids in Hs'.
    destruct Hs' as (r & Hr & Hor & Hcr).
    assert (Hc' : In r (exclude_customer_id_None
      (filter_organization_uuid (organization_uuid self) t))).
    { apply In_candidates. repeat split; auto. congruence. }
    apply Hle in Hc'. rewrite Hcr in Hc'. exact Hc'.
Qed.

(** * Round trip of str and int *)

Section IntStr.

Lemma digit_cases (d : Z) :
  0 <= d < 10 ->
  d = 0 \/ d = 1 \/ d = 2 \/ d = 3 \/ d = 4 \/ d = 5 \/ d = 6 \/ d = 7
  \/ d = 8 \/ d = 9.
Proof. lia. Qed.

Lemma digit_char_spec (d : Z) :
  0 <= d < 10 ->
  is_digit (digit_char d) = true
  /\ digit_value (digit_char d) = d
  /\ is_space (digit_char d) = false
  /\ split_sign (String (digit_char d) EmptyString)
     = (false, String (digit_char d) EmptyString).
Proof.
  intros H. apply digit_cases in H.
  repeat (destruct H as [->|H]; [repeat split; reflexivity|]).
  subst d. repeat split; reflexivity.
Qed.

Lemma scan_digits_digit (b : bool) (a : Z) (c : ascii) (r : string) :
  is_digit c = true ->
  scan_digits b a (String c r) = scan_digits false (10 * a + digit_value c) r.
Proof. intros H. simpl. now rewrite H. Qed.

(** With enough fuel the printed digits start with a digit and scan
    back to the number. *)
Lemma str_digits_scan (f : nat) :
  forall (n : Z) (acc : string),
    0 <= n < 10 ^ Z.of_nat (S f) ->
    (exists c r, str_digits (S f) n acc = String c r /\ is_digit c = true)
    /\ exists k : nat, forall (b : bool) (a : Z),
         scan_digits b a (str_digits (S f) n acc)
         = scan_digits false (a * 10 ^ Z.of_nat k + n) acc.
Proof.
  induction f as [|f IH]; intros n acc Hn.
  - assert (Hd : 0 <= n < 10) by (simpl in Hn; lia).
    assert (E : str_digits 1 n acc = String (digit_char n) acc).
    { simpl. rewrite Z.mod_small by lia.
      destruct (n <? 10) eqn:L; [reflexivity|]. apply Z.ltb_ge in L. lia. }
    rewrite E. destruct (digit_char_spec n Hd) as (D & V & _).
    split; [eauto|]. exists 1%nat. intros b a.
    rewrite scan_digits_digit by exact D. rewrite V. f_equal. simpl. lia.
  - change (str_digits (S (S f)) n acc)
      with (let acc' := String (digit_char (n mod 10)) acc in
            if n <? 10 then acc' else str_digits (S f) (n / 10) acc').
    cbv zeta.
    assert (Hm : 0 <= n mod 10 < 10) by (apply Z.mod_pos_bound; lia).
    destruct (digit_char_spec (n mod 10) Hm) as (D & V & _).
    destruct (n <? 10) eqn:L.
    + apply Z.ltb_lt in L. split; [eauto|]. exists 1%nat. intros b a.
      rewrite scan_digits_digit by exact D. rewrite V.
      rewrite Z.mod_small by lia. f_equal. simpl. lia.
    + apply Z.ltb_ge in L.
      assert (Hq : 0 <= n / 10 < 10 ^ Z.of_nat (S f)).
      { split; [apply Z.div_pos; lia|].
        apply Z.div_lt_upper_bound; [lia|].
        replace (Z.of_nat (S (S f))) with (Z.succ (Z.of_nat (S f))) in Hn
          by lia.
        rewrite Z.pow_succ_r in Hn by lia. lia. }
      destruct (IH (n / 10) (String (digit_char (n mod 10)) acc) Hq)
        as [Hhd [k Hk]].
      split; [exact Hhd|]. exists (S k). intros b a.
      rewrite Hk. rewrite scan_digits_digit by exact D. rewrite V.
      f_equal. rewrite Nat2Z.inj_succ, Z.pow_succ_r by lia.
      pose proof (Z.div_mod n 10). lia.
Qed.

Lemma str_nonneg_fuel (n : Z) :
  0 <= n -> 0 <= n < 10 ^ Z.of_nat (S (Z.to_nat (Z.log2 n))).
Proof.
  intros Hn. split; [exact Hn|].
  rewrite Nat2Z.inj_succ, Z2Nat.id by apply Z.log2_nonneg.
  destruct (Z.eq_dec n 0) as [->|Hz]; [reflexivity|].
  assert (H2 : n < 2 ^ Z.succ (Z.log2 n)) by (apply Z.log2_spec; lia).
  assert (H10 : 2 ^ Z.succ (Z.log2 n) <= 10 ^ Z.succ (Z.log2 n)).
  { apply Z.pow_le_mono_l. lia. }
  lia.
Qed.

Lemma str_nonneg_scan (n : Z) :
  0 <= n ->
  exists c r, str_nonneg n = String c r /\ is_digit c = true
    /\ scan_digits false (digit_value c) r = Some (n, EmptyString).
Proof.
  intros Hn. unfold str_nonneg.
  destruct (str_digits_scan _ n EmptyString (str_nonneg_fuel n Hn))
    as [(c & r & E & D) [k Hk]].
  exists c, r. repeat split; auto.
  specialize (Hk false 0). rewrite E in Hk.
  rewrite scan_digits_digit in Hk by exact D.
  simpl in Hk. exact Hk.
Qed.

Lemma is_digit_not_space (c : ascii) :
  is_digit c = true -> is_space c = false.
Proof.
  unfold is_digit, is_space. cbv zeta. intros H.
  apply andb_true_iff in H. destruct H as [H1 H2].
  apply N.leb_le in H1.
  apply orb_false_iff. split.
  - apply andb_false_iff. right. apply N.leb_gt. lia.
  - apply N.eqb_neq. lia.
Qed.

Lemma is_digit_no_sign (c : ascii) (r : string) :
  is_digit c = true -> split_sign (String c r) = (false, String c r).
Proof.
  unfold is_digit, split_sign. cbv zeta. intros H.
  apply andb_true_iff in H. destruct H as [H1 H2].
  apply N.leb_le in H1.
  destruct (N.eqb_spec (N_of_ascii c) 43); [lia|].
  destruct (N.eqb_spec (N_of_ascii c) 45); [lia|]. reflexivity.
Qed.

Lemma int_str_nonneg (n : Z) : 0 <= n -> int (str_nonneg n) = Ok n.
Proof.
  intros Hn. destruct (str_nonneg_scan n Hn) as (c & r & E & D & Hs).
  rewrite E. unfold int. simpl skip_spaces.
  rewrite (is_digit_not_space c D), (is_digit_no_sign c r D).
  rewrite D, Hs. reflexivity.
Qed.

(** [int(str(n)) == n]. *)
Lemma int_str (n : Z) : int (str n) = Ok n.
Proof.
  unfold str. destruct (n <? 0) eqn:L.
  - apply Z.ltb_lt in L.
    destruct (str_nonneg_scan (- n) ltac:(lia)) as (c & r & E & D & Hs).
    rewrite E. unfold int. simpl. rewrite D, Hs. simpl.
    f_equal. lia.
  - apply Z.ltb_ge in L. now apply int_str_nonneg.
Qed.

Lemma str_nonempty (n : Z) : str n <> EmptyString.
Proof.
  intros E. pose proof (int_str n) as H. rewrite E in H. discriminate.
Qed.

(** [int] raises nothing but [ValueError]. *)
Lemma int_cases (s : string) :
  (exists n, int s = Ok n) \/ int s = Raise ValueError.
Proof.
  unfold int. destruct (split_sign (skip_spaces s)) as [neg body].
  destruct body as [|c r]; [now right|].
  destruct (is_digit c); [|now right].
  destruct (scan_digits false (digit_value c) r) as [[n rest]|];
    [|now right].
  destruct (all_spaces rest); [left; eauto | now right].
Qed.

End IntStr.

(** * get_default_customer_id *)

Lemma get_default_customer_id_start (self : Contact) (t : Table) :
  organization_ids self t = [] ->
  get_default_customer_id self t = Ok "10001"%string.
Proof.
  intros H. apply latest_row_None in H.
  unfold get_default_customer_id. rewrite H. reflexivity.
Qed.

Lemma get_default_customer_id_next (self : Contact) (t : Table)
  (m : Contact) (s : string) :
  latest_row self t = Some m -> customer_id m = Some s ->
  get_default_customer_id self t = bind (int s) (fun n => Ok (str (n + 1))).
Proof.
  intros H E. unfold get_default_customer_id. rewrite H. simpl. rewrite E.
  simpl. destruct (int_cases s) as [[n ->]| ->]; reflexivity.
Qed.

(** [get_default_customer_id] returns, or raises the [ValueError] of
    [int]; the latter only when the query found a row. *)
Lemma get_default_customer_id_cases (self : Contact) (t : Table) :
  (exists cid, get_default_customer_id self t = Ok cid)
  \/ (get_default_customer_id self t = Raise ValueError
      /\ latest_row self t <> None).
Proof.
  destruct (latest_row self t) as [m|] eqn:El.
  - destruct (latest_row_Some self t m El) as (_ & _ & s & Es & _).
    rewrite (get_default_customer_id_next self t m s El Es).
    destruct (int_cases s) as [[n ->]| ->]; simpl; [left; eauto|].
    right. split; [reflexivity | discriminate].
  - left. exists "10001"%string. apply get_default_customer_id_start.
    now apply latest_row_None.
Qed.

(** * Model.save *)

Lemma filter_no_pk (k : nat) (t : Table) :
  existsb (has_pk k) t = false ->
  List.filter (fun r => negb (has_pk k r)) t = t.
Proof.
  induction t as [|r t IH]; simpl; [reflexivity|].
  intros H. apply orb_false_iff in H. destruct H as [Hr Ht].
  rewrite Hr. simpl. now rewrite IH.
Qed.

Lemma has_pk_eq (k : nat) (r : Contact) :
  has_pk k r = true <-> pk r = Some k.
Proof.
  unfold has_pk. destruct (pk r) as [j|]; [|easy].
  rewrite Nat.eqb_eq. split; congruence.
Qed.

Lemma next_pk_fresh (t : Table) (r : Contact) :
  In r t -> pk r <> Some (next_pk t).
Proof.
  intros Hr E. unfold next_pk in E.
  pose proof (proj1 (list_max_le
    (map (fun r => match pk r with Some k => k | None => O end) t) _)
    (Nat.le_refl _)) as H.
  rewrite List.Forall_forall in H.
  specialize (H (next_pk t)). unfold next_pk in H.
  assert (Hin : In (S (list_max (map
      (fun r => match pk r with Some k => k | None => O end) t)))
    (map (fun r => match pk r with Some k => k | None => O end) t)).
  { apply in_map_iff. exists r. rewrite E. auto. }
  apply H in Hin. lia.
Qed.

Lemma no_pk_fresh (k : nat) (t : Table) (r : Contact) :
  existsb (has_pk k) t = false -> In r t -> pk r <> Some k.
Proof.
  intros H Hr E. apply has_pk_eq in E.
  assert (existsb (has_pk k) t = true) by (apply existsb_exists; eauto).
  congruence.
Qed.

(** The setters of [edit_date] and [pk] leave the checked columns and
    the [uuid] alone. *)
Lemma column_constraints_set_edit_date (v : option datetime) (c : Contact) :
  column_constraints (set_edit_date v c) = column_constraints c.
Proof. reflexivity. Qed.

Lemma column_constraints_set_pk (v : option nat) (c : Contact) :
  column_constraints (set_pk v c) = column_constraints c.
Proof. reflexivity. Qed.

Lemma uuid_set_edit_date (v : option datetime) (c : Contact) :
  uuid (set_edit_date v c) = uuid c.
Proof. reflexivity. Qed.

Lemma uuid_set_pk (v : option nat) (c : Contact) :
  uuid (set_pk v c) = uuid c.
Proof. reflexivity. Qed.

#[local] Hint Rewrite column_constraints_set_edit_date
  column_constraints_set_pk uuid_set_edit_date uuid_set_pk : contact_fields.

(** [Model.save] returns exactly when the table takes the row. *)
Lemma Model_save_result (now : datetime) (c : Contact) (t : Table) :
  result (Model_save now c t) = Ok tt <-> storage_accepts c t = true.
Proof.
  unfold Model_save, storage_accepts, other_rows, sql_update, sql_insert.
  cbn [pk set_edit_date].
  destruct (pk c) as [k|] eqn:Ek.
  - destruct (existsb (has_pk k) t) eqn:Ex;
      [|rewrite (filter_no_pk k t Ex)];
      autorewrite with contact_fields;
      destruct (column_constraints c); simpl; try easy;
      destruct (uuid_taken _ _); simpl; easy.
  - autorewrite with contact_fields.
    destruct (column_constraints c); simpl; [|easy].
    destruct (uuid_taken _ _); simpl; easy.
Qed.

(** A call that raises leaves the table as it was. *)
Lemma Model_save_raise (now : datetime) (c : Contact) (t : Table) :
  result (Model_save now c t) <> Ok tt ->
  objects (Model_save now c t) = t.
Proof.
  unfold Model_save. cbn [pk set_edit_date].
  destruct (pk c) as [k|].
  - destruct (existsb (has_pk k) t);
      [destruct (sql_update _ _ _) | destruct (sql_insert _ _)];
      simpl; congruence.
  - destruct (sql_insert _ _); simpl; congruence.
Qed.

Lemma set_pk_same (k : option nat) (c : Contact) :
  pk c = k -> set_pk k c = c.
Proof. destruct c. cbn. now intros <-. Qed.

(** [Model.save] changes nothing on the instance but [edit_date] and,
    on an insert, the key. *)
Lemma Model_save_instance (now : datetime) (c : Contact) (t : Table) :
  exists k, instance (Model_save now c t)
            = set_pk k (set_edit_date (Some now) c).
Proof.
  unfold Model_save. cbn [pk set_edit_date].
  destruct (pk c) as [k|] eqn:Ek.
  - exists (Some k).
    rewrite (set_pk_same (Some k) (set_edit_date (Some now) c) Ek).
    destruct (existsb (has_pk k) t);
      [destruct (sql_update _ _ _) | destruct (sql_insert _ _)];
      reflexivity.
  - destruct (sql_insert _ _).
    + exists (Some (next_pk t)). reflexivity.
    + exists None.
      now rewrite (set_pk_same None (set_edit_date (Some now) c) Ek).
Qed.

(** The table after a call that returns: the row with the instance's
    key is replaced, or the instance is appended under a key that no row
    had. *)
Lemma Model_save_objects (now : datetime) (c : Contact) (t : Table) :
  result (Model_save now c t) = Ok tt ->
  let s := Model_save now c t in
  (exists k, pk c = Some k /\ pk (instance s) = Some k
     /\ existsb (has_pk k) t = true
     /\ objects s = map (fun r => if has_pk k r then instance s else r) t)
  \/ (exists k, (pk c = Some k \/ pk c = None)
        /\ pk (instance s) = Some k
        /\ (forall r, In r t -> pk r <> Some k)
        /\ objects s = t ++ [instance s]).
Proof.
  unfold Model_save. cbn [pk set_edit_date].
  destruct (pk c) as [k|] eqn:Ek.
  - destruct (existsb (has_pk k) t) eqn:Ex.
    + unfold sql_update. sql_accepted. left. exists k. auto.
    + unfold sql_insert. sql_accepted. right. exists k. repeat split; auto.
      intros r. now apply no_pk_fresh.
  - unfold sql_insert. sql_accepted.
    right. exists (next_pk t). repeat split; auto.
    intros r. apply next_pk_fresh.
Qed.

Lemma Model_save_stored (now : datetime) (c : Contact) (t : Table) :
  result (Model_save now c t) = Ok tt -> stored (Model_save now c t).
Proof.
  intros H. apply Model_save_objects in H. cbv zeta in H.
  unfold stored.
  destruct H as [(k & _ & Hk & Hex & Ho)|(k & _ & Hk & Hfresh & Ho)];
    rewrite Ho, Hk.
  - split; [congruence|]. split.
    + apply existsb_exists in Hex. destruct Hex as (r & Hr & Hp).
      apply in_map_iff. exists r. now rewrite Hp.
    + intros r' Hr' Hp. apply in_map_iff in Hr'.
      destruct Hr' as (r & Er & Hr).
      destruct (has_pk k r) eqn:Hkr; [congruence|].
      subst r'. apply has_pk_eq in Hp. congruence.
  - split; [congruence|]. split.
    + apply in_or_app. right. now left.
    + intros r Hr Hp. apply in_app_or in Hr.
      destruct Hr as [Hr|[<-|[]]]; [|reflexivity].
      now apply Hfresh in Hr.
Qed.

Lemma uuid_taken_false (u : UUID) (l : Table) :
  uuid_taken u l = false <-> forall r, In r l -> uuid r <> u.
Proof.
  unfold uuid_taken. split.
  - intros H r Hr E.
    assert (existsb (fun r => (uuid r =? u)%N) l = true).
    { apply existsb_exists. exists r. split; [exact Hr|].
      now apply N.eqb_eq. }
    congruence.
  - intros H. destruct (existsb _ l) eqn:E; [|reflexivity].
    apply existsb_exists in E. destruct E as (r & Hr & E).
    apply N.eqb_eq in E. now apply H in Hr.
Qed.

(** * Contact.save *)

Lemma save_explicit (now : datetime) (self : Contact) (t : Table) :
  falsy (customer_id self) = false ->
  save now self t = Model_save now self t.
Proof. intros H. unfold save. now rewrite H. Qed.

Lemma save_assign (now : datetime) (self : Contact) (t : Table)
  (cid : string) :
  falsy (customer_id self) = true ->
  get_default_customer_id self t = Ok cid ->
  save now self t = Model_save now (set_customer_id (Some cid) self) t.
Proof. intros H E. unfold save. now rewrite H, E. Qed.

Lemma save_raise (now : datetime) (self : Contact) (t : Table) (e : exn) :
  falsy (customer_id self) = true ->
  get_default_customer_id self t = Raise e ->
  save now self t = {| result := Raise e; instance := self; objects := t |}.
Proof. intros H E. unfold save. now rewrite H, E. Qed.

Lemma Model_save_customer_id (now : datetime) (c : Contact) (t : Table) :
  customer_id (instance (Model_save now c t)) = customer_id c.
Proof. destruct (Model_save_instance now c t) as [k ->]. reflexivity. Qed.

Lemma falsy_Some (s : string) : s <> EmptyString -> falsy (Some s) = false.
Proof. intros H. simpl. now apply String.eqb_neq. Qed.

Lemma get_default_customer_id_str (self : Contact) (t : Table)
  (cid : string) :
  get_default_customer_id self t = Ok cid -> exists n, cid = str n.
Proof.
  unfold get_default_customer_id.
  destruct (try_except_AttributeError _ _) as [n|e]; simpl; [|discriminate].
  intros [= <-]. eauto.
Qed.

Lemma no_ids (self : Contact) (t : Table) :
  (forall r, In r t -> organization_uuid r = organization_uuid self ->
             customer_id r = None) ->
  organization_ids self t = [].
Proof.
  intros H. destruct (organization_ids self t) as [|s l] eqn:E;
    [reflexivity|].
  assert (Hs : In s (organization_ids self t)) by (rewrite E; now left).
  apply In_organization_ids in Hs. destruct Hs as (r & Hr & Ho & Hc).
  rewrite (H r Hr Ho) in Hc. discriminate.
Qed.

(** A call of [save] that returns is [Model.save] on an instance with a
    truthy [customer_id] that differs from [self] in [customer_id] at
    most. *)
Lemma save_returns (now : datetime) (self : Contact) (t : Table) :
  result (save now self t) = Ok tt ->
  exists c, save now self t = Model_save now c t
    /\ falsy (customer_id c) = false
    /\ create_date c = create_date self
    /\ pk c = pk self.
Proof.
  unfold save. destruct (falsy (customer_id self)) eqn:Hf.
  - destruct (get_default_customer_id self t) as [cid|e] eqn:Hg;
      [|discriminate].
    intros _. exists (set_customer_id (Some cid) self).
    repeat split; auto.
    apply get_default_customer_id_str in Hg. destruct Hg as [n ->].
    apply falsy_Some, str_nonempty.
  - intros _. exists self. auto.
Qed.

(** * The claims *)

Lemma save_customer_id (now : datetime) (self : Contact) (t : Table) :
  falsy (customer_id self) = true ->
  customer_id (instance (save now self t))
  = match get_default_customer_id self t with
    | Ok cid => Some cid
    | Raise _ => customer_id self
    end.
Proof.
  intros Hf. unfold save. rewrite Hf.
  destruct (get_default_customer_id self t) as [cid|e]; [|reflexivity].
  now rewrite Model_save_customer_id.
Qed.

(** C1 at a failing input.  Organization "org-a" has the numeric ids "9"
    and "10"; their numeric maximum is 10, so the claim promises "11".
    The query orders the strings, selects "9", and save assigns "10",
    the id another Contact of the organization already has.  The same
    happens to ids that were all assigned automatically once they pass
    from "99999" to "100000": the next one is "100000" again. *)
Theorem C1_numeric_maximum_failing_input :
  organization_ids (sample_new 9 (Some "org-a") None) table_9_10
  = ["9"; "10"]%string
  /\ int "9" = Ok 9 /\ int "10" = Ok 10
  /\ str (Z.max 9 10 + 1) = "11"%string
  /\ result (save 5 (sample_new 9 (Some "org-a") None) table_9_10) = Ok tt
  /\ customer_id (instance (save 5 (sample_new 9 (Some "org-a") None)
                              table_9_10))
     = Some "10"%string
  /\ map customer_id
       (objects (save 5 (sample_new 9 (Some "org-a") None) table_9_10))
     = [Some "9"; Some "10"; Some "10"]%string
  /\ get_default_customer_id (sample_new 9 (Some "org-a") None)
       table_rollover
     = Ok "100000"%string.
Proof. repeat split; reflexivity. Qed.

(** * The validators *)

Lemma invalid_entry_rejected (keys choices : list string) (e : HStore) :
  invalid_entry keys choices e -> valid_entry keys choices e = false.
Proof.
  unfold valid_entry. intros [(k & Hk & Hn)|Hty].
  - apply andb_false_iff. left.
    destruct (forallb (has_key e) keys) eqn:E; [|reflexivity].
    rewrite forallb_forall in E. specialize (E k Hk).
    unfold has_key in E. rewrite Hn in E. discriminate.
  - apply andb_false_iff. right. unfold allowed_type.
    destruct (e !! "type"%string) as [[ty|]|]; try reflexivity.
    destruct (existsb (String.eqb ty) choices) eqn:E; [|reflexivity].
    apply existsb_exists in E. destruct E as (c & Hc & E).
    apply String.eqb_eq in E. subst c. now apply (Hty ty) in Hc.
Qed.

Lemma run_validators_rejects (keys choices : list string)
  (l : list HStore) (e : HStore) :
  In e l -> invalid_entry keys choices e ->
  run_validators (validate_entries keys choices) (Some l)
  = Raise ValidationError.
Proof.
  intros Hin Hinv. destruct l as [|x l]; [destruct Hin|].
  unfold run_validators, validate_entries.
  destruct (forallb (valid_entry keys choices) (x :: l)) eqn:E;
    [|reflexivity].
  rewrite forallb_forall in E. specialize (E e Hin).
  rewrite (invalid_entry_rejected keys choices e Hinv) in E. discriminate.
Qed.

Lemma run_validators_cases (keys choices : list string)
  (v : option (list HStore)) :
  run_validators (validate_entries keys choices) v = Ok tt
  \/ run_validators (validate_entries keys choices) v
     = Raise ValidationError.
Proof.
  destruct v as [[|x l]|]; simpl; auto.
  unfold validate_entries. destruct (forallb _ _); auto.
Qed.

(** C7, as the code has it.  The validators attached to addresses,
    emails and phones reject a Contact with an invalid entry (a missing
    key of the structure, or a type outside the allowed choices) with a
    ValidationError when clean_fields is run on the instance; the table
    is not involved. *)
Theorem C7_validators_reject_invalid_entry (self : Contact) :
  has_invalid_entry self -> clean_fields self = Raise ValidationError.
Proof.
  unfold clean_fields, validate_addresses, validate_emails, validate_phones.
  intros [(l & e & El & Hin & Hinv)|[(l & e & El & Hin & Hinv)
                                    |(l & e & El & Hin & Hinv)]].
  - rewrite El, (run_validators_rejects _ _ l e Hin Hinv). reflexivity.
  - rewrite El, (run_validators_rejects _ _ l e Hin Hinv).
    destruct (run_validators_cases ADDRESS_KEYS ADDRESS_TYPE_CHOICES
                (addresses self)) as [-> | ->]; reflexivity.
  - rewrite El, (run_validators_rejects _ _ l e Hin Hinv).
    destruct (run_validators_cases ADDRESS_KEYS ADDRESS_TYPE_CHOICES
                (addresses self)) as [-> | ->]; [|reflexivity].
    destruct (run_validators_cases EMAIL_KEYS EMAIL_TYPE_CHOICES
                (emails self)) as [-> | ->]; reflexivity.
Qed.

Lemma pigeon_contact_invalid : has_invalid_entry pigeon_contact.
Proof.
  right. left. exists [pigeon_email], pigeon_email.
  split; [reflexivity|]. split; [now left|]. right.
  intros ty E. vm_compute in E. injection E as <-.
  intros [H|[H|[H|[]]]]; discriminate.
Qed.

Lemma C7_validators_reject_invalid_entry_witness :
  has_invalid_entry pigeon_contact
  /\ clean_fields pigeon_contact = Raise ValidationError.
Proof.
  assert (H : has_invalid_entry pigeon_contact).
  { right. left. exists [pigeon_email], pigeon_email.
    split; [reflexivity|]. split; [now left|]. right.
    intros ty E. vm_compute in E. injection E as <-.
    intros [H|[H|[H|[]]]]; discriminate. }
  split; [exact H|].
  apply (C7_validators_reject_invalid_entry pigeon_contact). exact H.
Defined.

(** C7 as stated fails: save runs no validator.  The Contact with the
    email entry of type "pigeon" is invalid, yet save returns and the
    table has the new row. *)
Lemma C7_save_runs_no_validator :
  has_invalid_entry pigeon_contact
  /\ result (save 5 pigeon_contact table_9_10) = Ok tt
  /\ emails (instance (save 5 pigeon_contact table_9_10))
     = Some [pigeon_email]
  /\ objects (save 5 pigeon_contact table_9_10)
     = table_9_10 ++ [instance (save 5 pigeon_contact table_9_10)].
Proof.
  split; [exact pigeon_contact_invalid|]. repeat split; reflexivity.
Qed.

(** * Uniqueness of customer_id *)

Lemma unique_app_one (t : Table) (x : Contact) :
  unique_customer_ids t ->
  (forall r, In r t -> organization_uuid r = organization_uuid x ->
             customer_id r <> customer_id x) ->
  unique_customer_ids (t ++ [x]).
Proof.
  intros Hu Hx i j ri rj Hij Hi Hj Ho Hci Hcj.
  destruct (Nat.lt_ge_cases i (length t)) as [Li|Li];
    destruct (Nat.lt_ge_cases j (length t)) as [Lj|Lj].
  - rewrite List.nth_error_app1 in Hi, Hj by assumption.
    now apply (Hu i j ri rj).
  - rewrite List.nth_error_app1 in Hi by assumption.
    rewrite List.nth_error_app2 in Hj by assumption.
    destruct (j - length t)%nat as [|n]; [|destruct n; discriminate].
    injection Hj as <-. apply Hx; [|exact Ho].
    eapply List.nth_error_In, Hi.
  - rewrite List.nth_error_app2 in Hi by assumption.
    rewrite List.nth_error_app1 in Hj by assumption.
    destruct (i - length t)%nat as [|n]; [|destruct n; discriminate].
    injection Hi as <-. intros E. symmetry in E. revert E.
    apply Hx; [|now symmetry]. eapply List.nth_error_In, Hj.
  - rewrite List.nth_error_app2 in Hi, Hj by assumption.
    destruct (i - length t)%nat as [|n] eqn:Ei;
      [|destruct n; discriminate].
    destruct (j - length t)%nat as [|n] eqn:Ej;
      [|destruct n; discriminate].
    lia.
Qed.

Lemma keyed_positions (t : Table) (i j : nat) (a b : Contact) :
  List.NoDup (map pk t) ->
  nth_error t i = Some a -> nth_error t j = Some b -> pk a = pk b ->
  i = j.
Proof.
  intros Hn Hi Hj E.
  apply (proj1 (List.NoDup_nth_error (map pk t)) Hn).
  - rewrite List.length_map. apply List.nth_error_Some. congruence.
  - rewrite !List.nth_error_map, Hi, Hj. simpl. congruence.
Qed.

Lemma unique_update (t : Table) (k : nat) (x : Contact) :
  List.NoDup (map pk t) ->
  unique_customer_ids t ->
  (forall r, In r t -> has_pk k r = false ->
             organization_uuid r = organization_uuid x ->
             customer_id r <> customer_id x) ->
  unique_customer_ids (map (fun r => if has_pk k r then x else r) t).
Proof.
  intros Hn Hu Hx i j ri rj Hij Hi Hj Ho Hci Hcj.
  rewrite List.nth_error_map in Hi, Hj.
  destruct (nth_error t i) as [a|] eqn:Ea; [|discriminate].
  destruct (nth_error t j) as [b|] eqn:Eb; [|discriminate].
  simpl in Hi, Hj. injection Hi as <-. injection Hj as <-.
  destruct (has_pk k a) eqn:Ka; destruct (has_pk k b) eqn:Kb.
  - apply has_pk_eq in Ka, Kb. exfalso. apply Hij.
    apply (keyed_positions t i j a b Hn Ea Eb). congruence.
  - intros E. symmetry in E. revert E.
    apply Hx; [eapply List.nth_error_In, Eb | exact Kb | now symmetry].
  - apply Hx; [eapply List.nth_error_In, Ea | exact Ka | exact Ho].
  - now apply (Hu i j a b).
Qed.

Lemma Model_save_keyed (now : datetime) (c : Contact) (t : Table) :
  keyed t -> keyed (objects (Model_save now c t)).
Proof.
  intros [Hf Hn].
  destruct (result (Model_save now c t)) as [[]|e] eqn:Er.
  - pose proof (Model_save_objects now c t Er) as Ho. cbv zeta in Ho.
    destruct Ho as [(k & _ & Hk & _ & Ho)|(k & _ & Hk & Hfresh & Ho)];
      rewrite Ho.
    + assert (Hpk : forall r,
        pk (if has_pk k r then instance (Model_save now c t) else r) = pk r).
      { intros r. destruct (has_pk k r) eqn:E; [|reflexivity].
        apply has_pk_eq in E. congruence. }
      split.
      * apply List.Forall_map. apply List.Forall_impl with (2 := Hf).
        intros r. now rewrite Hpk.
      * rewrite List.map_map.
        rewrite (List.map_ext _ pk Hpk). exact Hn.
    + split.
      * apply List.Forall_app. split; [exact Hf|].
        constructor; [congruence | constructor].
      * rewrite List.map_app. simpl.
        apply List.NoDup_app; [exact Hn | repeat constructor; auto |].
        intros p Hp [<-|[]]. apply in_map_iff in Hp.
        destruct Hp as (r & Er' & Hr). apply (Hfresh r Hr). congruence.
  - rewrite Model_save_raise by congruence. now split.
Qed.

(** Every table that sequential saves build is keyed. *)
Lemma reachable_keyed (t : Table) : reachable t -> keyed t.
Proof.
  induction 1 as [|now self t _ IH].
  - split; constructor.
  - unfold save. destruct (falsy (customer_id self)).
    + destruct (get_default_customer_id self t); [|exact IH].
      now apply Model_save_keyed.
    + now apply Model_save_keyed.
Qed.

(** Where string order and numeric order agree, the assigned id is one
    that no row of the organization has. *)
Lemma get_default_customer_id_fresh (self : Contact) (t : Table)
  (cid : string) :
  numeric_order_agrees self t ->
  get_default_customer_id self t = Ok cid ->
  ~ In cid (organization_ids self t).
Proof.
  intros Hagree Hg Hin.
  destruct (latest_row self t) as [m|] eqn:El.
  - destruct (Hagree m El) as (b & Hb & Hle).
    destruct (latest_row_Some self t m El) as (_ & _ & sm & Em & _).
    rewrite (get_default_customer_id_next self t m sm El Em) in Hg.
    rewrite Em in Hb. simpl in Hb. rewrite Hb in Hg. simpl in Hg.
    injection Hg as <-.
    destruct (Hle _ Hin) as (a & Ha & Hab).
    rewrite int_str in Ha. injection Ha as <-. lia.
  - apply latest_row_None in El. rewrite El in Hin. destruct Hin.
Qed.

(** C5, as the code has it.  In a table built by sequential saves where
    the customer_ids are unique per organization, a save of a Contact
    with an empty customer_id keeps them unique, provided the id that the
    query selects for its organization is numeric and numerically the
    greatest of the organization. *)
Theorem C5_assignment_keeps_ids_unique (now : datetime) (self : Contact)
  (t : Table) :
  reachable t ->
  unique_customer_ids t ->
  falsy (customer_id self) = true ->
  numeric_order_agrees self t ->
  unique_customer_ids (objects (save now self t)).
Proof.
  intros Hreach Hu Hf Hagree.
  destruct (reachable_keyed t Hreach) as [_ Hn].
  destruct (get_default_customer_id self t) as [cid|e] eqn:Hg.
  - rewrite (save_assign now self t cid Hf Hg).
    pose proof (get_default_customer_id_fresh self t cid Hagree Hg) as Hfresh.
    set (c := set_customer_id (Some cid) self).
    assert (Hx : forall r, In r t ->
      organization_uuid r = organization_uuid (instance (Model_save now c t)) ->
      customer_id r <> customer_id (instance (Model_save now c t))).
    { intros r Hr Ho E. rewrite Model_save_customer_id in E.
      destruct (Model_save_instance now c t) as [k Ek].
      rewrite Ek in Ho. apply Hfresh. apply In_organization_ids.
      exists r. auto. }
    destruct (result (Model_save now c t)) as [[]|e] eqn:Er.
    + pose proof (Model_save_objects now c t Er) as Ho. cbv zeta in Ho.
      destruct Ho as [(k & _ & _ & _ & Ho)|(k & _ & _ & _ & Ho)];
        rewrite Ho.
      * apply unique_update; auto.
      * apply unique_app_one; auto.
    + rewrite Model_save_raise by congruence. exact Hu.
  - rewrite (save_raise now self t e Hf Hg). exact Hu.
Qed.

Lemma C5_assignment_keeps_ids_unique_witness :
  reachable (objects (save 1 (sample_new 1 (Some "org-a") (Some "10001")) []))
  /\ unique_customer_ids
       (objects (save 1 (sample_new 1 (Some "org-a") (Some "10001")) []))
  /\ numeric_order_agrees (sample_new 2 (Some "org-a") None)
       (objects (save 1 (sample_new 1 (Some "org-a") (Some "10001")) []))
  /\ map customer_id
       (objects (save 2 (sample_new 2 (Some "org-a") None)
          (objects (save 1 (sample_new 1 (Some "org-a") (Some "10001"))
                      []))))
     = [Some "10001"; Some "10002"]%string
  /\ unique_customer_ids
       (objects (save 2 (sample_new 2 (Some "org-a") None)
          (objects (save 1 (sample_new 1 (Some "org-a") (Some "10001"))
                      [])))).
Proof.
  assert (Hr : reachable
    (objects (save 1 (sample_new 1 (Some "org-a") (Some "10001")) []))).
  { apply reachable_save, reachable_empty. }
  assert (Hu : unique_customer_ids
    (objects (save 1 (sample_new 1 (Some "org-a") (Some "10001")) []))).
  { intros [|[|i]] [|[|j]] ri rj Hij Hi Hj; try discriminate.
    now contradiction Hij. }
  assert (Ha : numeric_order_agrees (sample_new 2 (Some "org-a") None)
    (objects (save 1 (sample_new 1 (Some "org-a") (Some "10001")) []))).
  { intros m Hm. injection Hm as <-. exists 10001. split; [reflexivity|].
    intros s [<-|[]]. exists 10001. split; [reflexivity | lia]. }
  split; [exact Hr|]. split; [exact Hu|]. split; [exact Ha|].
  split; [reflexivity|].
  apply (C5_assignment_keeps_ids_unique 2 (sample_new 2 (Some "org-a") None)
           _ Hr Hu); [reflexivity | exact Ha].
Defined.

(** C5 as stated fails.  Two sequential saves with the explicit
    customer_id "5" in organization "org-a" build a table with two
    distinct Contacts that share the id: save stores an explicit id
    without looking at the table. *)
Lemma C5_explicit_duplicate :
  reachable table_twice_5
  /\ map (fun r => (pk r, organization_uuid r, customer_id r)) table_twice_5
     = [(Some 1%nat, Some "org-a", Some "5");
        (Some 2%nat, Some "org-a", Some "5")]%string
  /\ ~ unique_customer_ids table_twice_5.
Proof.
  split; [apply reachable_save, reachable_save, reachable_empty|].
  split; [reflexivity|].
  intros H.
  eapply (H 0%nat 1%nat); try reflexivity; discriminate.
Qed.

(** * Further properties of save *)

(** The rows after a [Model.save] that returns: the instance, and the
    rows that were there, of which only one with the instance's key can
    be gone. *)
Lemma Model_save_rows (now : datetime) (c : Contact) (t : Table) :
  result (Model_save now c t) = Ok tt ->
  (forall r, In r (objects (Model_save now c t)) ->
             r = instance (Model_save now c t) \/ In r t)
  /\ (forall r, In r t -> pk r <> pk (instance (Model_save now c t)) ->
                In r (objects (Model_save now c t)))
  /\ (length (objects (Model_save now c t)) = length t
      \/ length (objects (Model_save now c t)) = S (length t)).
Proof.
  intros H. apply Model_save_objects in H. cbv zeta in H.
  destruct H as [(k & _ & Hk & _ & Ho)|(k & _ & Hk & _ & Ho)];
    rewrite Ho, Hk.
  - split; [|split].
    + intros r Hr. apply in_map_iff in Hr. destruct Hr as (r0 & E & Hr0).
      destruct (has_pk k r0); subst r; auto.
    + intros r Hr Hp. apply in_map_iff. exists r. split; [|exact Hr].
      destruct (has_pk k r) eqn:E; [|reflexivity].
      apply has_pk_eq in E. contradiction.
    + left. apply List.length_map.
  - split; [|split].
    + intros r Hr. apply in_app_or in Hr.
      destruct Hr as [Hr|[<-|[]]]; auto.
    + intros r Hr _. apply in_or_app. now left.
    + right. rewrite List.length_app. simpl. lia.
Qed.

(** X1. A save that raises, whatever the exception, leaves the table
    as it was. *)
Theorem save_raising_keeps_table (now : datetime) (self : Contact)
  (t : Table) :
  result (save now self t) <> Ok tt ->
  objects (save now self t) = t.
Proof.
  unfold save. destruct (falsy (customer_id self)).
  - destruct (get_default_customer_id self t); [|reflexivity].
    apply Model_save_raise.
  - apply Model_save_raise.
Qed.

Lemma save_raising_keeps_table_witness :
  result (save 5 (sample_new 1 (Some "org-b") (Some "B-7")) table_9_10)
  = Raise IntegrityError
  /\ objects (save 5 (sample_new 1 (Some "org-b") (Some "B-7")) table_9_10)
     = table_9_10.
Proof.
  split; [reflexivity|].
  apply (save_raising_keeps_table 5
           (sample_new 1 (Some "org-b") (Some "B-7")) table_9_10).
  discriminate.
Defined.

(** What [Model.save] stores carries the time of the call. *)
Lemma Model_save_edit_date (now : datetime) (c : Contact) (t : Table) :
  edit_date (instance (Model_save now c t)) = Some now.
Proof. destruct (Model_save_instance now c t) as [k ->]. reflexivity. Qed.

(** A row of the table after [save] was there before, or the call
    returned and the row is the instance. *)
Lemma save_rows_cases (now : datetime) (self : Contact) (t : Table)
  (r : Contact) :
  In r (objects (save now self t)) ->
  In r t
  \/ (result (save now self t) = Ok tt /\ r = instance (save now self t)).
Proof.
  destruct (result (save now self t)) as [[]|e] eqn:Er.
  - destruct (save_returns now self t Er) as (c & E & _).
    rewrite E in *. intros Hr.
    destruct (proj1 (Model_save_rows now c t Er) r Hr); auto.
  - intros Hr. left. revert Er Hr. unfold save.
    destruct (falsy (customer_id self)).
    + destruct (get_default_customer_id self t); [|auto].
      intros Er. rewrite Model_save_raise by congruence. auto.
    + intros Er. rewrite Model_save_raise by congruence. auto.
Qed.

(** X4. In every table that sequential saves build, each row has a key,
    a customer_id that is neither None nor empty, and an edit_date:
    save never stores a Contact without them. *)
Theorem reachable_rows_have_customer_id (t : Table) :
  reachable t ->
  forall r, In r t ->
    falsy (customer_id r) = false /\ pk r <> None /\ edit_date r <> None.
Proof.
  induction 1 as [|now self t _ IH]; [intros r []|].
  intros r Hr.
  destruct (save_rows_cases now self t r Hr) as [Hold|[Er ->]];
    [now apply IH|].
  destruct (save_returns now self t Er) as (c & E & Hf & _).
  rewrite E in *.
  split; [now rewrite Model_save_customer_id|].
  split; [apply (Model_save_stored now c t Er)|].
  rewrite Model_save_edit_date. discriminate.
Qed.

Lemma reachable_rows_have_customer_id_witness :
  reachable (objects (save 7 (new_Contact 3 9 ["wfl1"%string]) []))
  /\ map (fun r => (pk r, customer_id r, edit_date r))
       (objects (save 7 (new_Contact 3 9 ["wfl1"%string]) []))
     = [(Some 1%nat, Some "10001"%string, Some 7)]
  /\ forall r, In r (objects (save 7 (new_Contact 3 9 ["wfl1"%string]) [])) ->
       falsy (customer_id r) = false /\ pk r <> None /\ edit_date r <> None.
Proof.
  assert (H : reachable
    (objects (save 7 (new_Contact 3 9 ["wfl1"%string]) []))).
  { apply reachable_save, reachable_empty. }
  split; [exact H|]. split; [reflexivity|].
  exact (reachable_rows_have_customer_id _ H).
Defined.

(** * Digit strings, their order and their value *)

Section Digits.






End Digits.

(** * What str writes *)

Section StrDigits.






End StrDigits.

(** * Further properties of get_default_customer_id *)














(** X10. The column holds 32 characters.  When the id that
    get_default_customer_id returns is longer, save raises DataError,
    the table is unchanged, and the instance keeps the id it was
    given. *)
Theorem save_overlong_customer_id (now : datetime) (self : Contact)
  (t : Table) (cid : string) :
  falsy (customer_id self) = true ->
  get_default_customer_id self t = Ok cid ->
  (32 < String.length cid)%nat ->
  result (save now self t) = Raise DataError
  /\ objects (save now self t) = t
  /\ customer_id (instance (save now self t)) = Some cid.
Proof.
  intros Hf Hg Hlen. rewrite (save_assign now self t cid Hf Hg).
  split; [|split; [|now rewrite Model_save_customer_id]].
  - assert (Hc : column_constraints
                   (set_edit_date (Some now)
                      (set_customer_id (Some cid) self)) = false).
    { unfold column_constraints. cbn [customer_id set_edit_date
        set_customer_id within_opt]. unfold within.
      destruct (Nat.leb_spec (String.length cid) 32); [lia|]. reflexivity. }
    unfold Model_save. cbn [pk set_edit_date set_customer_id].
    destruct (pk self) as [k|].
    + destruct (existsb (has_pk k) t); unfold sql_update, sql_insert;
        rewrite Hc; reflexivity.
    + unfold sql_insert. autorewrite with contact_fields.
      rewrite column_constraints_set_edit_date in Hc.
      rewrite Hc. reflexivity.
  - apply Model_save_raise. intros E.
    apply Model_save_result in E. unfold storage_accepts in E.
    apply andb_true_iff in E. destruct E as [E _].
    unfold column_constraints in E.
    cbn [customer_id set_customer_id within_opt] in E. unfold within in E.
    destruct (Nat.leb_spec (String.length cid) 32); [lia|].
    discriminate.
Qed.

Lemma save_overlong_customer_id_witness :
  get_default_customer_id (sample_new 9 (Some "org-a") None) table_nines
  = Ok "100000000000000000000000000000000"%string
  /\ (32 < String.length "100000000000000000000000000000000")%nat
  /\ result (save 5 (sample_new 9 (Some "org-a") None) table_nines)
     = Raise DataError
  /\ objects (save 5 (sample_new 9 (Some "org-a") None) table_nines)
     = table_nines.
Proof.
  split; [reflexivity|]. split; [simpl; lia|].
  destruct (save_overlong_customer_id 5 (sample_new 9 (Some "org-a") None)
              table_nines "100000000000000000000000000000000")
    as (H1 & H2 & _).
  - reflexivity.
  - reflexivity.
  - simpl. lia.
  - split; [exact H1 | exact H2].
Defined.

(** * Contact.__str__ *)

Lemma string_length_append (a b : string) :
  String.length (String.append a b) = (String.length a + String.length b)%nat.
Proof. induction a as [|c a IH]; simpl; [reflexivity | now rewrite IH]. Qed.

Lemma string_prefix_append (a b : string) :
  String.prefix a (String.append a b) = true.
Proof.
  induction a as [|c a IH]; simpl; [now destruct b|].
  destruct (ascii_dec c c); [exact IH | contradiction].
Qed.

(** X11. The display string of a Contact starts with its first_name,
    has the length of the two names plus the blank between them, and,
    for a Contact whose columns fit the table, between 1 and 101
    characters; with both names blank it is the single blank. *)
Theorem str_Contact_length (self : Contact) :
  column_constraints self = true ->
  String.prefix (first_name self) (__str__ self) = true
  /\ String.length (__str__ self)
     = (String.length (first_name self) + 1
        + String.length (last_name self))%nat
  /\ (1 <= String.length (__str__ self) <= 101)%nat
  /\ (first_name self = EmptyString -> last_name self = EmptyString ->
      __str__ self = " "%string).
Proof.
  intros Hc. unfold __str__.
  split; [apply string_prefix_append|].
  assert (El : String.length
                 (String.append (first_name self)
                    (String.append " " (last_name self)))
               = (String.length (first_name self) + 1
                  + String.length (last_name self))%nat).
  { rewrite string_length_append.
    change (String.append " " (last_name self))
      with (String " "%char (last_name self)).
    cbn [String.length]. lia. }
  split; [exact El|]. split.
  - rewrite El. unfold column_constraints in Hc.
    repeat (apply andb_true_iff in Hc; destruct Hc as [Hc ?]).
    unfold within in *.
    repeat match goal with
           | H : (_ <=? _)%nat = true |- _ => apply Nat.leb_le in H
           end.
    lia.
  - intros -> ->. reflexivity.
Qed.

Lemma str_Contact_length_witness :
  column_constraints (sample_row 1 (Some "org-a") (Some "9")) = true
  /\ __str__ (sample_row 1 (Some "org-a") (Some "9")) = "Ada Kupfer"%string
  /\ (1 <= String.length (__str__ (sample_row 1 (Some "org-a") (Some "9")))
      <= 101)%nat.
Proof.
  split; [reflexivity|]. split; [reflexivity|].
  apply (str_Contact_length (sample_row 1 (Some "org-a") (Some "9"))).
  reflexivity.
Defined.

(** * order_by('-customer_id') *)

Lemma insert_desc_permutation (x : Contact) (l : Table) :
  Permutation (insert_desc x l) (x :: l).
Proof.
  induction l as [|y l IH]; simpl; [reflexivity|].
  destruct (customer_id_leb (customer_id y) (customer_id x)); [reflexivity|].
  rewrite IH. apply perm_swap.
Qed.

Lemma descending_trans (a b c : Contact) :
  descending a b -> descending b c -> descending a c.
Proof.
  unfold descending. intros Hab Hbc.
  now apply (customer_id_leb_trans _ (customer_id b)).
Qed.

Lemma insert_desc_sorted (x : Contact) (l : Table) :
  StronglySorted descending l -> StronglySorted descending (insert_desc x l).
Proof.
  induction 1 as [|y l Hs IH Hy]; simpl; [repeat constructor|].
  destruct (customer_id_leb (customer_id y) (customer_id x)) eqn:E.
  - constructor; [now constructor|]. constructor; [exact E|].
    apply List.Forall_impl with (2 := Hy). intros z Hz.
    now apply (descending_trans x y z).
  - constructor; [exact IH|].
    rewrite List.Forall_forall in *. intros z Hz.
    apply (Permutation_in _ (insert_desc_permutation x l)) in Hz.
    destruct Hz as [<-|Hz]; [|now apply Hy].
    now apply customer_id_leb_total.
Qed.

(** X12. The model of order_by('-customer_id') returns the rows it was
    given, each as often as it occurs, in descending order of
    customer_id; so first() is a row that none exceeds. *)
Theorem order_by_desc_customer_id_sorts (t : Table) :
  Permutation (order_by_desc_customer_id t) t
  /\ StronglySorted descending (order_by_desc_customer_id t).
Proof.
  induction t as [|x t [IHp IHs]]; simpl; [split; constructor|].
  split.
  - rewrite insert_desc_permutation. now constructor.
  - now apply insert_desc_sorted.
Qed.

(** * The declared constraints in reachable tables *)

Lemma update_no_pk (k : nat) (x : Contact) (t : Table) :
  (forall r, In r t -> has_pk k r = false) ->
  map (fun r => if has_pk k r then x else r) t = t.
Proof.
  induction t as [|r t IH]; intros H; simpl; [reflexivity|].
  rewrite (H r) by now left.
  rewrite IH; [reflexivity|]. intros r' Hr'. apply H. now right.
Qed.

Lemma update_uuid_nodup (k : nat) (x : Contact) (t : Table) :
  List.NoDup (map pk t) ->
  List.NoDup (map uuid t) ->
  uuid_taken (uuid x) (List.filter (fun r => negb (has_pk k r)) t) = false ->
  List.NoDup (map uuid (map (fun r => if has_pk k r then x else r) t)).
Proof.
  induction t as [|r t IH]; intros Hp Hu Hx; [constructor|].
  simpl in Hp, Hu. inversion Hp as [|? ? Hpr Hpt]. subst.
  inversion Hu as [|? ? Hur Hut]. subst.
  cbn [map List.filter] in *.
  destruct (has_pk k r) eqn:Ek; cbn [negb] in Hx.
  - assert (Hno : forall r', In r' t -> has_pk k r' = false).
    { intros r' Hr'. destruct (has_pk k r') eqn:E'; [|reflexivity].
      apply has_pk_eq in Ek, E'. exfalso. apply Hpr.
      apply in_map_iff. exists r'. split; [congruence | exact Hr']. }
    rewrite (update_no_pk k x t Hno).
    assert (Ef : List.filter (fun r => negb (has_pk k r)) t = t).
    { apply filter_no_pk. destruct (existsb (has_pk k) t) eqn:Ex;
        [|reflexivity].
      apply existsb_exists in Ex. destruct Ex as (r' & Hr' & E').
      rewrite (Hno r' Hr') in E'. discriminate. }
    rewrite Ef in Hx. constructor; [|exact Hut].
    intros Hin. apply in_map_iff in Hin. destruct Hin as (r' & E' & Hr').
    exact (proj1 (uuid_taken_false _ _) Hx r' Hr' E').
  - simpl in Hx. apply orb_false_iff in Hx. destruct Hx as [Hrx Hx].
    apply N.eqb_neq in Hrx.
    constructor; [|now apply IH].
    intros Hin. rewrite List.map_map in Hin. apply in_map_iff in Hin.
    destruct Hin as (r' & E' & Hr').
    destruct (has_pk k r'); [congruence|].
    apply Hur. apply in_map_iff. eauto.
Qed.

(** After [save] the table is as it was, or the call returned. *)
Lemma save_objects_cases (now : datetime) (self : Contact) (t : Table) :
  objects (save now self t) = t \/ result (save now self t) = Ok tt.
Proof.
  destruct (result (save now self t)) as [[]|e] eqn:Er; [now right|].
  left. revert Er. unfold save. destruct (falsy (customer_id self)).
  - destruct (get_default_customer_id self t); [|reflexivity].
    intros Er. apply Model_save_raise. congruence.
  - intros Er. apply Model_save_raise. congruence.
Qed.

(** X13. The constraints that the field declarations put on the table
    hold in every table that sequential saves build: no two rows share
    a uuid (unique=True) or a key, and every CharField of every row is
    within its max_length. *)
Theorem reachable_declared_constraints (t : Table) :
  reachable t ->
  List.NoDup (map uuid t)
  /\ List.NoDup (map pk t)
  /\ Forall (fun r => column_constraints r = true) t.
Proof.
  intros Hreach. pose proof (reachable_keyed t Hreach) as [_ Hk].
  split; [|split; [exact Hk|]]; clear Hk.
  - induction Hreach as [|now self t Hreach IH]; [constructor|].
    pose proof (reachable_keyed t Hreach) as [_ Hk].
    destruct (result (save now self t)) as [[]|e] eqn:Er.
    + destruct (save_returns now self t Er) as (c & E & _).
      rewrite E in *. clear E.
      pose proof (proj1 (Model_save_result now c t) Er) as Hacc.
      unfold storage_accepts in Hacc. apply andb_true_iff in Hacc.
      destruct Hacc as [_ Hu]. apply negb_true_iff in Hu.
      destruct (Model_save_instance now c t) as [k' Ei].
      pose proof (Model_save_objects now c t Er) as Ho. cbv zeta in Ho.
      destruct Ho as [(k & Hc & _ & _ & Ho)|(k & Hc & _ & Hfresh & Ho)];
        rewrite Ho.
      * unfold other_rows in Hu. rewrite Hc in Hu.
        apply update_uuid_nodup; auto. now rewrite Ei.
      * rewrite List.map_app. simpl.
        apply List.NoDup_app; [exact IH | repeat constructor; auto |].
        intros u Hin [<-|[]]. apply in_map_iff in Hin.
        destruct Hin as (r & Eu & Hr). rewrite Ei in Eu. simpl in Eu.
        revert Eu. apply (proj1 (uuid_taken_false _ _) Hu).
        unfold other_rows. destruct Hc as [-> | ->]; [|exact Hr].
        apply filter_In. split; [exact Hr|].
        destruct (has_pk k r) eqn:E'; [|reflexivity].
        apply has_pk_eq in E'. now apply Hfresh in Hr.
    + destruct (save_objects_cases now self t) as [-> | E];
        [exact IH | congruence].
  - induction Hreach as [|now self t Hreach IH]; [constructor|].
    apply List.Forall_forall. intros r Hr.
    rewrite List.Forall_forall in IH.
    destruct (save_rows_cases now self t r Hr) as [Hold|[Er ->]];
      [now apply IH|].
    destruct (save_returns now self t Er) as (c & E & _).
    rewrite E in *. clear E.
    pose proof (proj1 (Model_save_result now c t) Er) as Hacc.
    unfold storage_accepts in Hacc. apply andb_true_iff in Hacc.
    destruct Hacc as [Hc _].
    destruct (Model_save_instance now c t) as [k' ->].
    now autorewrite with contact_fields.
Qed.

Lemma reachable_declared_constraints_witness :
  reachable table_twice_5
  /\ map uuid table_twice_5 = [1%N; 2%N]
  /\ List.NoDup (map uuid table_twice_5)
  /\ Forall (fun r => column_constraints r = true) table_twice_5.
Proof.
  assert (H : reachable table_twice_5).
  { apply reachable_save, reachable_save, reachable_empty. }
  split; [exact H|]. split; [reflexivity|].
  destruct (reachable_declared_constraints table_twice_5 H) as (H1 & _ & H2).
  split; [exact H1 | exact H2].
Defined.

(** * Uniqueness where the ids are digit strings of one length *)




(** * The assignment, stated on the rows *)

(** The ids of the organization are read off the rows: two tables with
    the same rows of the organization hold the same ids. *)
Lemma same_rows_same_ids (self : Contact) (t t' : Table) :
  (forall r, organization_uuid r = organization_uuid self ->
             (In r t' <-> In r t)) ->
  forall s, In s (organization_ids self t')
            <-> In s (organization_ids self t).
Proof.
  intros H s. rewrite !In_organization_ids.
  split; intros (r & Hr & Ho & Hc); exists r; repeat split; auto;
    now apply (H r Ho).
Qed.

(** Tables that hold the same ids for the organization give the same
    result. *)
Lemma get_default_customer_id_same_ids (self : Contact) (t t' : Table) :
  (forall s, In s (organization_ids self t')
             <-> In s (organization_ids self t)) ->
  get_default_customer_id self t' = get_default_customer_id self t.
Proof.
  intros H.
  destruct (latest_row self t) as [row|] eqn:El;
    destruct (latest_row self t') as [row'|] eqn:El'.
  - destruct (latest_row_Some self t row El) as (_ & _ & s & Es & Hin & Hle).
    destruct (latest_row_Some self t' row' El')
      as (_ & _ & s' & Es' & Hin' & Hle').
    rewrite (get_default_customer_id_next self t row s El Es).
    rewrite (get_default_customer_id_next self t' row' s' El' Es').
    assert (E : s' = s).
    { apply String.leb_antisym; [apply Hle, H, Hin' | apply Hle', H, Hin]. }
    now rewrite E.
  - destruct (latest_row_Some self t row El) as (_ & _ & s & _ & Hin & _).
    apply latest_row_None in El'. apply H in Hin. rewrite El' in Hin.
    destruct Hin.
  - destruct (latest_row_Some self t' row' El') as (_ & _ & s & _ & Hin & _).
    apply latest_row_None in El. apply H in Hin. rewrite El in Hin.
    destruct Hin.
  - apply latest_row_None in El, El'.
    now rewrite !get_default_customer_id_start.
Qed.

(** The query selects the id that no id of the organization exceeds in
    string order. *)
Lemma greatest_id_selected (self : Contact) (t : Table) (r : Contact)
  (s : string) :
  In r t -> organization_uuid r = organization_uuid self ->
  customer_id r = Some s ->
  (forall r' s', In r' t ->
     organization_uuid r' = organization_uuid self ->
     customer_id r' = Some s' -> String.leb s' s = true) ->
  exists row, latest_row self t = Some row /\ customer_id row = Some s.
Proof.
  intros Hr Ho Hc Hmax.
  assert (Hin : In s (organization_ids self t)).
  { apply In_organization_ids. eauto. }
  destruct (latest_row self t) as [row|] eqn:El.
  - destruct (latest_row_Some self t row El)
      as (Hrow & Horow & m & Em & _ & Hle).
    exists row. split; [reflexivity|]. rewrite Em. f_equal.
    apply String.leb_antisym; [now apply (Hmax row m) | now apply Hle].
  - apply latest_row_None in El. rewrite El in Hin. destruct Hin.
Qed.

(** C2. In a table where no Contact of the same organization_uuid has a
    customer_id, save on a Contact whose customer_id is empty assigns
    "10001": get_default_customer_id returns it, the instance carries
    it after the call, and it is the instance with that id that save
    hands to Model.save. *)
Theorem C2_first_customer_id (now : datetime) (self : Contact) (t : Table) :
  falsy (customer_id self) = true ->
  (forall r, In r t -> organization_uuid r = organization_uuid self ->
             customer_id r = None) ->
  get_default_customer_id self t = Ok "10001"%string
  /\ customer_id (instance (save now self t)) = Some "10001"%string
  /\ save now self t
     = Model_save now (set_customer_id (Some "10001"%string) self) t.
Proof.
  intros Hf Hn.
  pose proof (get_default_customer_id_start self t (no_ids self t Hn)) as Hg.
  split; [exact Hg|].
  rewrite (save_assign now self t "10001" Hf Hg).
  split; [now rewrite Model_save_customer_id | reflexivity].
Qed.

Lemma C2_first_customer_id_witness :
  falsy (customer_id (new_Contact 3 9 ["wfl1"%string])) = true
  /\ (forall r, In r table_other ->
       organization_uuid r
       = organization_uuid (new_Contact 3 9 ["wfl1"%string]) ->
       customer_id r = None)
  /\ customer_id (instance (save 5 (new_Contact 3 9 ["wfl1"%string])
                              table_other))
     = Some "10001"%string.
Proof.
  assert (H : forall r, In r table_other ->
       organization_uuid r
       = organization_uuid (new_Contact 3 9 ["wfl1"%string]) ->
       customer_id r = None).
  { intros r [<-|[<-|[]]]; [discriminate | reflexivity]. }
  split; [reflexivity|]. split; [exact H|].
  apply (C2_first_customer_id 5 (new_Contact 3 9 ["wfl1"%string])
           table_other); [reflexivity | exact H].
Defined.

(** C3. The assignment reads only the Contacts whose organization_uuid
    is that of the record being saved.  On two tables that hold the same
    rows of that organization, whatever rows of other organizations
    either holds, get_default_customer_id returns the same and save
    assigns the same customer_id; when no row of the organization has a
    customer_id, that is "10001". *)
Theorem C3_scoped_to_organization (now : datetime) (self : Contact)
  (t t' : Table) :
  falsy (customer_id self) = true ->
  (forall r, organization_uuid r = organization_uuid self ->
             (In r t' <-> In r t)) ->
  get_default_customer_id self t' = get_default_customer_id self t
  /\ customer_id (instance (save now self t'))
     = customer_id (instance (save now self t))
  /\ ((forall r, In r t -> organization_uuid r = organization_uuid self ->
                 customer_id r = None) ->
      customer_id (instance (save now self t')) = Some "10001"%string).
Proof.
  intros Hf Hrows.
  pose proof (get_default_customer_id_same_ids self t t'
                (same_rows_same_ids self t t' Hrows)) as Hg.
  split; [exact Hg|].
  rewrite !save_customer_id by exact Hf. rewrite Hg.
  split; [reflexivity|].
  intros Hn.
  now rewrite (get_default_customer_id_start self t (no_ids self t Hn)).
Qed.

Lemma C3_scoped_to_organization_witness :
  falsy (customer_id (sample_new 9 (Some "org-a") None)) = true
  /\ (forall r,
        organization_uuid r
        = organization_uuid (sample_new 9 (Some "org-a") None) ->
        (In r table_mixed <-> In r table_9_10_late))
  /\ customer_id (instance (save 5 (sample_new 9 (Some "org-a") None)
                              table_mixed))
     = customer_id (instance (save 5 (sample_new 9 (Some "org-a") None)
                                table_9_10_late))
  /\ customer_id (instance (save 5 (sample_new 9 (Some "org-a") None)
                              table_mixed))
     = Some "10"%string.
Proof.
  assert (H : forall r,
        organization_uuid r
        = organization_uuid (sample_new 9 (Some "org-a") None) ->
        (In r table_mixed <-> In r table_9_10_late)).
  { intros r Ho. split.
    - intros [<-|[<-|[<-|[<-|[]]]]]; try discriminate;
        [now left | right; now left].
    - intros [<-|[<-|[]]]; [right; now left | right; right; right; now left]. }
  split; [reflexivity|]. split; [exact H|].
  split; [|reflexivity].
  apply (C3_scoped_to_organization 5 (sample_new 9 (Some "org-a") None)
           table_9_10_late table_mixed); [reflexivity | exact H].
Defined.

(** * What save hands to Model.save *)

Lemma Model_save_keeps_pk (now : datetime) (c : Contact) (t : Table)
  (k : nat) :
  pk c = Some k -> pk (instance (Model_save now c t)) = Some k.
Proof.
  intros Hk. unfold Model_save. cbn [pk set_edit_date]. rewrite Hk.
  destruct (existsb (has_pk k) t);
    [destruct (sql_update _ _ _) | destruct (sql_insert _ _)];
    simpl; exact Hk.
Qed.

Lemma Model_save_create_date (now : datetime) (c : Contact) (t : Table) :
  create_date (instance (Model_save now c t)) = create_date c.
Proof. destruct (Model_save_instance now c t) as [k ->]. reflexivity. Qed.

(** After a [Model.save] that returns, the table has a row under the
    instance's key, and it is the only one. *)
Lemma Model_save_row (now : datetime) (c : Contact) (t : Table) :
  result (Model_save now c t) = Ok tt ->
  exists r, In r (objects (Model_save now c t))
    /\ pk r = pk (instance (Model_save now c t))
    /\ pk r <> None
    /\ customer_id r = customer_id c
    /\ create_date r = create_date c
    /\ edit_date r = Some now
    /\ forall r', In r' (objects (Model_save now c t)) -> pk r' = pk r ->
                  r' = r.
Proof.
  intros H. destruct (Model_save_stored now c t H) as (Hp & Hin & Hone).
  exists (instance (Model_save now c t)).
  rewrite Model_save_customer_id, Model_save_create_date,
    Model_save_edit_date.
  repeat split; auto.
Qed.

(** What [save] does, case by case: it raises what
    [get_default_customer_id] raised and touches nothing, or it is
    [Model.save] on an instance with a customer_id that is not empty,
    the given one or the assigned one. *)
Lemma save_cases (now : datetime) (self : Contact) (t : Table) :
  (falsy (customer_id self) = true
   /\ exists e, get_default_customer_id self t = Raise e
        /\ save now self t
           = {| result := Raise e; instance := self; objects := t |})
  \/ (exists c, save now self t = Model_save now c t
        /\ falsy (customer_id c) = false
        /\ ((falsy (customer_id self) = false /\ c = self)
            \/ (falsy (customer_id self) = true
                /\ exists cid, get_default_customer_id self t = Ok cid
                     /\ c = set_customer_id (Some cid) self))).
Proof.
  unfold save. destruct (falsy (customer_id self)) eqn:Hf.
  - destruct (get_default_customer_id self t) as [cid|e] eqn:Hg.
    + right. exists (set_customer_id (Some cid) self).
      split; [reflexivity|]. split.
      * apply get_default_customer_id_str in Hg. destruct Hg as [n ->].
        apply falsy_Some, str_nonempty.
      * right. split; [reflexivity|]. eauto.
    + left. split; [reflexivity|]. eauto.
  - right. exists self. auto.
Qed.

(** C4, as the code has it.  When customer_id is set to a non-empty
    value before save, the assignment never overwrites it: save is
    Model.save on the unchanged instance and the instance keeps the
    customer_id.  When the customer_id is within the 32 characters of
    the column, a save that returns has stored a row under the
    instance's key with that customer_id. *)
Theorem C4_explicit_customer_id_not_overwritten (now : datetime)
  (self : Contact) (t : Table) (s : string) :
  customer_id self = Some s ->
  s <> EmptyString ->
  save now self t = Model_save now self t
  /\ customer_id (instance (save now self t)) = Some s
  /\ ((String.length s <= 32)%nat ->
      result (save now self t) = Ok tt ->
      exists r, In r (objects (save now self t))
        /\ pk r = pk (instance (save now self t))
        /\ pk r <> None
        /\ customer_id r = Some s).
Proof.
  intros Hs Hne.
  assert (Hf : falsy (customer_id self) = false).
  { rewrite Hs. now apply falsy_Some. }
  rewrite (save_explicit now self t Hf).
  split; [reflexivity|].
  split; [now rewrite Model_save_customer_id|].
  intros _ Hr.
  destruct (Model_save_row now self t Hr) as (r & Hin & Hp & Hn & Hc & _).
  exists r. repeat split; auto. congruence.
Qed.

Lemma C4_explicit_customer_id_not_overwritten_witness :
  customer_id (sample_new 9 (Some "org-a") (Some "A-1")) = Some "A-1"%string
  /\ "A-1"%string <> EmptyString
  /\ result (save 5 (sample_new 9 (Some "org-a") (Some "A-1")) table_9_10)
     = Ok tt
  /\ customer_id (instance (save 5 (sample_new 9 (Some "org-a") (Some "A-1"))
                              table_9_10))
     = Some "A-1"%string
  /\ exists r,
       In r (objects (save 5 (sample_new 9 (Some "org-a") (Some "A-1"))
                        table_9_10))
       /\ pk r = pk (instance (save 5 (sample_new 9 (Some "org-a")
                                         (Some "A-1")) table_9_10))
       /\ customer_id r = Some "A-1"%string.
Proof.
  split; [reflexivity|]. split; [discriminate|]. split; [reflexivity|].
  destruct (C4_explicit_customer_id_not_overwritten 5
              (sample_new 9 (Some "org-a") (Some "A-1")) table_9_10 "A-1")
    as (_ & H1 & H2).
  - reflexivity.
  - discriminate.
  - split; [exact H1|].
    destruct H2 as (r & Hin & Hp & _ & Hc); [simpl; lia | reflexivity |].
    exists r. repeat split; auto.
Defined.

(** C4 as stated fails.  An explicit customer_id of 33 characters is not
    empty, yet save does not persist the record: the column holds 32
    characters, the write is refused with DataError and the table is as
    it was. *)
Lemma C4_overlong_explicit_id :
  customer_id (sample_new 9 (Some "org-a") (Some id_33)) = Some id_33
  /\ String.length id_33 = 33%nat
  /\ falsy (Some id_33) = false
  /\ result (save 5 (sample_new 9 (Some "org-a") (Some id_33)) table_9_10)
     = Raise DataError
  /\ objects (save 5 (sample_new 9 (Some "org-a") (Some id_33)) table_9_10)
     = table_9_10.
Proof. repeat split; reflexivity. Qed.

(** C6. The except clause of get_default_customer_id takes over only
    when no Contact of the organization has a customer_id (the result
    is then "10001"); whatever the function raises is the ValueError of
    int, and then such a Contact exists.  When the customer_id that is
    greatest in string order among those of the organization is an
    ASCII string that int does not accept, the ValueError leaves
    get_default_customer_id and save: save raises it, the table is
    unchanged and the instance is untouched. *)
Theorem C6_non_numeric_propagates (now : datetime) (self : Contact)
  (t : Table) :
  falsy (customer_id self) = true ->
  ((forall r, In r t -> organization_uuid r = organization_uuid self ->
              customer_id r = None) ->
   get_default_customer_id self t = Ok "10001"%string)
  /\ (forall e, get_default_customer_id self t = Raise e ->
        e = ValueError
        /\ exists r, In r t
             /\ organization_uuid r = organization_uuid self
             /\ customer_id r <> None)
  /\ forall (r : Contact) (s : string),
       In r t -> organization_uuid r = organization_uuid self ->
       customer_id r = Some s ->
       (forall r' s', In r' t ->
          organization_uuid r' = organization_uuid self ->
          customer_id r' = Some s' -> String.leb s' s = true) ->
       ascii_only s = true ->
       ~ numeric s ->
       get_default_customer_id self t = Raise ValueError
       /\ result (save now self t) = Raise ValueError
       /\ objects (save now self t) = t
       /\ instance (save now self t) = self.
Proof.
  intros Hf. split; [|split].
  - intros Hn. apply get_default_customer_id_start. now apply no_ids.
  - intros e He.
    destruct (get_default_customer_id_cases self t) as [[cid Hc]|[Hv Hl]];
      [congruence|].
    split; [congruence|].
    destruct (latest_row self t) as [row|] eqn:El; [|contradiction].
    destruct (latest_row_Some self t row El) as (Hin & Ho & s & Es & _).
    exists row. repeat split; auto. congruence.
  - intros r s Hr Ho Hc Hmax _ Hnum.
    destruct (greatest_id_selected self t r s Hr Ho Hc Hmax)
      as (row & El & Es).
    assert (Hg : get_default_customer_id self t = Raise ValueError).
    { rewrite (get_default_customer_id_next self t row s El Es).
      destruct (int_cases s) as [Hn| ->]; [contradiction | reflexivity]. }
    split; [exact Hg|].
    rewrite (save_raise now self t ValueError Hf Hg). auto.
Qed.

Lemma C6_non_numeric_propagates_witness :
  falsy (customer_id (sample_new 9 (Some "org-a") None)) = true
  /\ In (sample_row 2 (Some "org-a") (Some "K-17")) table_legacy
  /\ ascii_only "K-17" = true
  /\ ~ numeric "K-17"
  /\ result (save 5 (sample_new 9 (Some "org-a") None) table_legacy)
     = Raise ValueError
  /\ objects (save 5 (sample_new 9 (Some "org-a") None) table_legacy)
     = table_legacy.
Proof.
  assert (Hn : ~ numeric "K-17") by (intros [n Hn]; discriminate).
  split; [reflexivity|]. split; [right; now left|].
  split; [reflexivity|]. split; [exact Hn|].
  destruct (C6_non_numeric_propagates 5 (sample_new 9 (Some "org-a") None)
              table_legacy) as (_ & _ & H); [reflexivity|].
  destruct (H (sample_row 2 (Some "org-a") (Some "K-17")) "K-17"%string)
    as (_ & H1 & H2 & _).
  - right. now left.
  - reflexivity.
  - reflexivity.
  - intros r' s' [<-|[<-|[]]] _ [= <-]; reflexivity.
  - reflexivity.
  - exact Hn.
  - split; [exact H1 | exact H2].
Defined.

(** C9. With at least one same-organization Contact that has a
    customer_id, all of them ASCII strings, get_default_customer_id is
    str(int(m) + 1) for the customer_id m of a Contact of the
    organization that is greatest in string order among them (and
    raises what int(m) raises).  String order is not numeric order:
    among "9" and "10" the string-greatest is "9", and the function
    returns "10", whatever other organizations hold. *)
Theorem C9_greatest_in_string_order (self : Contact) (t : Table) :
  (exists r, In r t /\ organization_uuid r = organization_uuid self
             /\ customer_id r <> None) ->
  (forall r s, In r t -> organization_uuid r = organization_uuid self ->
               customer_id r = Some s -> ascii_only s = true) ->
  (exists r m, In r t
     /\ organization_uuid r = organization_uuid self
     /\ customer_id r = Some m
     /\ (forall r' s', In r' t ->
           organization_uuid r' = organization_uuid self ->
           customer_id r' = Some s' -> String.leb s' m = true)
     /\ get_default_customer_id self t
        = bind (int m) (fun n => Ok (str (n + 1))))
  /\ (map (fun r => (organization_uuid r, customer_id r)) table_mixed
      = [(Some "org-b", Some "777"); (Some "org-a", Some "9");
         (Some "org-b", Some "A-1"); (Some "org-a", Some "10")]%string
      /\ String.leb "10" "9" = true
      /\ int "9" = Ok 9 /\ int "10" = Ok 10
      /\ get_default_customer_id (sample_new 9 (Some "org-a") None)
           table_mixed = Ok "10"%string).
Proof.
  intros (r & Hr & Ho & Hc) _. split; [|repeat split; reflexivity].
  destruct (latest_row self t) as [row|] eqn:El.
  - destruct (latest_row_Some self t row El)
      as (Hin & Horow & m & Em & _ & Hle).
    exists row, m. repeat split; auto.
    + intros r' s' Hr' Ho' Hc'. apply Hle.
      apply In_organization_ids. eauto.
    + now apply (get_default_customer_id_next self t row m).
  - apply latest_row_None in El.
    destruct (customer_id r) as [s|] eqn:Es; [|congruence].
    assert (Hs : In s (organization_ids self t)).
    { apply In_organization_ids. eauto. }
    rewrite El in Hs. destruct Hs.
Qed.

Lemma C9_greatest_in_string_order_witness :
  (exists r, In r table_mixed
     /\ organization_uuid r
        = organization_uuid (sample_new 9 (Some "org-a") None)
     /\ customer_id r <> None)
  /\ (forall r s, In r table_mixed ->
        organization_uuid r
        = organization_uuid (sample_new 9 (Some "org-a") None) ->
        customer_id r = Some s -> ascii_only s = true)
  /\ exists r m, In r table_mixed
       /\ customer_id r = Some m
       /\ get_default_customer_id (sample_new 9 (Some "org-a") None)
            table_mixed
          = bind (int m) (fun n => Ok (str (n + 1)))
       /\ get_default_customer_id (sample_new 9 (Some "org-a") None)
            table_mixed = Ok "10"%string.
Proof.
  assert (H1 : exists r, In r table_mixed
     /\ organization_uuid r
        = organization_uuid (sample_new 9 (Some "org-a") None)
     /\ customer_id r <> None).
  { exists (sample_row 2 (Some "org-a") (Some "9")).
    split; [right; now left|]. split; [reflexivity | discriminate]. }
  assert (H2 : forall r s, In r table_mixed ->
        organization_uuid r
        = organization_uuid (sample_new 9 (Some "org-a") None) ->
        customer_id r = Some s -> ascii_only s = true).
  { intros r s [<-|[<-|[<-|[<-|[]]]]] _ [= <-]; reflexivity. }
  split; [exact H1|]. split; [exact H2|].
  destruct (C9_greatest_in_string_order
              (sample_new 9 (Some "org-a") None) table_mixed H1 H2)
    as [(r & m & Hin & _ & Hc & _ & Hg) _].
  exists r, m. repeat split; auto.
Defined.

(** C10. After a save that returns, the instance's customer_id is
    neither None nor the empty string.  More is true, whether or not
    the call returns: either get_default_customer_id raised and save
    wrote nothing, or the instance that save handed to Model.save, whose
    customer_id the instance carries after the call, has a customer_id
    that is not empty.  The assignment runs exactly when customer_id is
    falsy: a truthy customer_id goes to Model.save as it is, a falsy one
    is replaced by the result of get_default_customer_id first. *)
Theorem C10_saved_customer_id_not_empty (now : datetime) (self : Contact)
  (t : Table) :
  (result (save now self t) = Ok tt ->
   exists s, customer_id (instance (save now self t)) = Some s
             /\ s <> EmptyString)
  /\ ((falsy (customer_id self) = true
       /\ exists e, get_default_customer_id self t = Raise e
            /\ result (save now self t) = Raise e
            /\ objects (save now self t) = t)
      \/ (exists c s, save now self t = Model_save now c t
            /\ customer_id c = Some s /\ s <> EmptyString
            /\ customer_id (instance (save now self t)) = Some s))
  /\ (falsy (customer_id self) = false ->
      save now self t = Model_save now self t)
  /\ (falsy (customer_id self) = true ->
      forall cid, get_default_customer_id self t = Ok cid ->
        save now self t
        = Model_save now (set_customer_id (Some cid) self) t).
Proof.
  assert (Hne : forall c, falsy (customer_id c) = false ->
                  exists s, customer_id c = Some s /\ s <> EmptyString).
  { intros c Hc. destruct (customer_id c) as [s|]; [|discriminate].
    exists s. split; [reflexivity|]. simpl in Hc.
    now apply String.eqb_neq in Hc. }
  split; [|split; [|split]].
  - intros Hr. destruct (save_cases now self t)
      as [(_ & e & _ & E)|(c & E & Hc & _)]; rewrite E in *;
      [discriminate|].
    rewrite Model_save_customer_id. now apply Hne.
  - destruct (save_cases now self t)
      as [(Hf & e & Hg & E)|(c & E & Hc & _)].
    + left. split; [exact Hf|]. exists e. rewrite E. auto.
    + right. destruct (Hne c Hc) as (s & Es & Hs).
      exists c, s. rewrite E, Model_save_customer_id. auto.
  - apply save_explicit.
  - intros Hf cid Hg. now apply save_assign.
Qed.

Lemma C10_saved_customer_id_not_empty_witness :
  result (save 5 (sample_new 9 (Some "org-a") (Some "")) table_9_10) = Ok tt
  /\ falsy (customer_id (sample_new 9 (Some "org-a") (Some ""))) = true
  /\ exists s,
       customer_id (instance (save 5 (sample_new 9 (Some "org-a") (Some ""))
                                table_9_10)) = Some s
       /\ s <> EmptyString.
Proof.
  split; [reflexivity|]. split; [reflexivity|].
  apply (C10_saved_customer_id_not_empty 5
           (sample_new 9 (Some "org-a") (Some "")) table_9_10).
  reflexivity.
Defined.

(** C8, as the code has it.  save never assigns create_date: after
    every save the instance has the create_date it had before, which
    default=timezone.now filled when the instance was built, not the time
    of the insert.  Every save that gets past get_default_customer_id
    sets edit_date to the time of the call.  A save that returns has
    stored a row under the instance's key with that create_date and
    edit_date, and saving the returned instance again, when it returns,
    leaves one row under the same key with the create_date as it was
    and the new edit_date. *)
Theorem C8_save_keeps_create_date (now1 now2 : datetime) (self : Contact)
  (t : Table) :
  create_date (instance (save now1 self t)) = create_date self
  /\ (forall built u w,
        create_date (instance (save now1 (new_Contact built u w) t)) = built)
  /\ ((falsy (customer_id self) = false
       \/ exists cid, get_default_customer_id self t = Ok cid) ->
      edit_date (instance (save now1 self t)) = Some now1)
  /\ (result (save now1 self t) = Ok tt ->
      (exists r, In r (objects (save now1 self t))
         /\ pk r = pk (instance (save now1 self t))
         /\ pk r <> None
         /\ create_date r = create_date self
         /\ edit_date r = Some now1)
      /\ (result (save now2 (instance (save now1 self t))
                    (objects (save now1 self t))) = Ok tt ->
          exists r,
            In r (objects (save now2 (instance (save now1 self t))
                             (objects (save now1 self t))))
            /\ pk r = pk (instance (save now1 self t))
            /\ create_date r = create_date self
            /\ edit_date r = Some now2
            /\ forall r',
                 In r' (objects (save now2 (instance (save now1 self t))
                                   (objects (save now1 self t)))) ->
                 pk r' = pk r -> r' = r)).
Proof.
  assert (Hcd : forall now c t0,
            create_date (instance (save now c t0)) = create_date c).
  { intros now c t0. destruct (save_cases now c t0)
      as [(_ & e & _ & E)|(c' & E & _ & Hc)]; rewrite E; [reflexivity|].
    rewrite Model_save_create_date.
    destruct Hc as [[_ ->]|(_ & cid & _ & ->)]; reflexivity. }
  split; [apply Hcd|]. split; [intros; apply Hcd|]. split.
  { intros Hreach. destruct (save_cases now1 self t)
      as [(Hf & e & Hg & _)|(c & E & _)].
    - destruct Hreach as [Hf'|[cid Hc]]; congruence.
    - rewrite E. apply Model_save_edit_date. }
  intros Hr1.
  destruct (save_cases now1 self t)
    as [(_ & e & _ & E)|(c & E & Hfc & Hc)]; rewrite E in *; [discriminate|].
  assert (Ecd : create_date c = create_date self).
  { destruct Hc as [[_ ->]|(_ & cid & _ & ->)]; reflexivity. }
  destruct (Model_save_row now1 c t Hr1)
    as (r & Hin & Hp & Hn & _ & Hrcd & Hred & _).
  split.
  { exists r. repeat split; auto. congruence. }
  set (s1 := Model_save now1 c t) in *.
  assert (Hf1 : falsy (customer_id (instance s1)) = false).
  { unfold s1. now rewrite Model_save_customer_id. }
  rewrite (save_explicit now2 (instance s1) (objects s1) Hf1).
  intros Hr2.
  destruct (Model_save_row now2 (instance s1) (objects s1) Hr2)
    as (r2 & Hin2 & Hp2 & _ & _ & Hrcd2 & Hred2 & Hone).
  destruct (pk (instance s1)) as [k|] eqn:Ek; [|congruence].
  rewrite (Model_save_keeps_pk now2 (instance s1) (objects s1) k Ek) in Hp2.
  exists r2. repeat split; auto.
  rewrite Hrcd2. unfold s1. rewrite Model_save_create_date. exact Ecd.
Qed.

Lemma C8_save_keeps_create_date_witness :
  result (save 100 (new_Contact 50 9 ["wfl1"%string]) table_9_10) = Ok tt
  /\ result (save 200
               (instance (save 100 (new_Contact 50 9 ["wfl1"%string])
                            table_9_10))
               (objects (save 100 (new_Contact 50 9 ["wfl1"%string])
                           table_9_10))) = Ok tt
  /\ map (fun r => (create_date r, edit_date r))
       (objects (save 200
                   (instance (save 100 (new_Contact 50 9 ["wfl1"%string])
                                table_9_10))
                   (objects (save 100 (new_Contact 50 9 ["wfl1"%string])
                               table_9_10))))
     = [(0, None); (0, None); (50, Some 200)]
  /\ exists r,
       In r (objects (save 200
                        (instance (save 100 (new_Contact 50 9
                                               ["wfl1"%string]) table_9_10))
                        (objects (save 100 (new_Contact 50 9
                                              ["wfl1"%string]) table_9_10))))
       /\ create_date r = 50
       /\ edit_date r = Some 200.
Proof.
  split; [reflexivity|]. split; [reflexivity|]. split; [reflexivity|].
  destruct (C8_save_keeps_create_date 100 200
              (new_Contact 50 9 ["wfl1"%string]) table_9_10)
    as (_ & _ & _ & H).
  destruct (H eq_refl) as [_ H2].
  destruct (H2 eq_refl) as (r & Hin & _ & Hc & He & _).
  exists r. repeat split; auto.
Defined.

(** C8 as stated fails.  A Contact built at time 0 is saved at time 100;
    the stored row has create_date 0.  A later save, at time 200, of
    another instance under the same key, built at time 150, returns and
    the stored create_date is 150: a later save has modified it. *)
Lemma C8_later_save_overwrites_create_date :
  map (fun r => (pk r, create_date r, edit_date r)) table_saved_once
  = [(Some 1%nat, 0, Some 100)]
  /\ pk same_key_instance = Some 1%nat
  /\ create_date same_key_instance = 150
  /\ result (save 200 same_key_instance table_saved_once) = Ok tt
  /\ map (fun r => (pk r, create_date r, edit_date r))
       (objects (save 200 same_key_instance table_saved_once))
     = [(Some 1%nat, 150, Some 200)].
Proof. repeat split; reflexivity. Qed.

(** X2. A save that returns writes one row: afterwards the table holds
    a row under the instance's key, and only one; every other row of the
    table was there before, every earlier row with another key is still
    there, and the table has grown by one row at most. *)
Theorem save_writes_one_row (now : datetime) (self : Contact) (t : Table) :
  result (save now self t) = Ok tt ->
  (exists r, In r (objects (save now self t))
     /\ pk r = pk (instance (save now self t))
     /\ pk r <> None
     /\ forall r', In r' (objects (save now self t)) -> pk r' = pk r ->
                   r' = r)
  /\ (forall r, In r (objects (save now self t)) ->
                pk r = pk (instance (save now self t)) \/ In r t)
  /\ (forall r, In r t -> pk r <> pk (instance (save now self t)) ->
                In r (objects (save now self t)))
  /\ (length (objects (save now self t)) = length t
      \/ length (objects (save now self t)) = S (length t)).
Proof.
  intros H. destruct (save_returns now self t H) as (c & E & _).
  rewrite E in *.
  destruct (Model_save_row now c t H) as (r & Hin & Hp & Hn & _ & _ & _ & Hone).
  destruct (Model_save_rows now c t H) as (Hrows & Hkeep & Hlen).
  split; [exists r; auto|]. split; [|split; [exact Hkeep | exact Hlen]].
  intros r' Hr'. destruct (Hrows r' Hr') as [-> | Hold]; auto.
Qed.

Lemma save_writes_one_row_witness :
  result (save 5 (sample_row 2 (Some "org-b") (Some "B-7")) table_9_10)
  = Ok tt
  /\ map (fun r => (pk r, organization_uuid r, customer_id r))
       (objects (save 5 (sample_row 2 (Some "org-b") (Some "B-7"))
                   table_9_10))
     = [(Some 1%nat, Some "org-a", Some "9");
        (Some 2%nat, Some "org-b", Some "B-7")]%string
  /\ exists r,
       In r (objects (save 5 (sample_row 2 (Some "org-b") (Some "B-7"))
                        table_9_10))
       /\ pk r = Some 2%nat.
Proof.
  split; [reflexivity|]. split; [reflexivity|].
  destruct (save_writes_one_row 5 (sample_row 2 (Some "org-b") (Some "B-7"))
              table_9_10) as ((r & Hin & Hp & _) & _); [reflexivity|].
  exists r. split; [exact Hin | exact Hp].
Defined.

(** X3. save changes three attributes of the instance at most:
    customer_id, edit_date and, on an insert, the key.  Every other
    field is what it was and a key that was set is kept.  When
    customer_id was truthy, or get_default_customer_id returned,
    edit_date is the time of the call after the call; when
    get_default_customer_id raised, the instance is untouched. *)
Theorem save_keeps_other_fields (now : datetime) (self : Contact)
  (t : Table) :
  same_data (instance (save now self t)) self
  /\ (forall k, pk self = Some k ->
                pk (instance (save now self t)) = Some k)
  /\ ((falsy (customer_id self) = false
       \/ exists cid, get_default_customer_id self t = Ok cid) ->
      edit_date (instance (save now self t)) = Some now)
  /\ (falsy (customer_id self) = true ->
      forall e, get_default_customer_id self t = Raise e ->
        instance (save now self t) = self).
Proof.
  split; [|split; [|split]].
  - destruct (save_cases now self t)
      as [(_ & e & _ & E)|(c & E & _ & Hc)]; rewrite E;
      [repeat split|].
    destruct (Model_save_instance now c t) as [k ->].
    destruct Hc as [[_ ->]|(_ & cid & _ & ->)]; repeat split.
  - intros k Hk. destruct (save_cases now self t)
      as [(_ & e & _ & E)|(c & E & _ & Hc)]; rewrite E; [exact Hk|].
    apply Model_save_keeps_pk.
    destruct Hc as [[_ ->]|(_ & cid & _ & ->)]; exact Hk.
  - intros Hreach. destruct (save_cases now self t)
      as [(Hf & e & Hg & _)|(c & E & _)].
    + destruct Hreach as [Hf'|[cid Hc]]; congruence.
    + rewrite E. apply Model_save_edit_date.
  - intros Hf e Hg. now rewrite (save_raise now self t e Hf Hg).
Qed.

Lemma save_keeps_other_fields_witness :
  falsy (customer_id (sample_new 9 (Some "org-a") None)) = true
  /\ get_default_customer_id (sample_new 9 (Some "org-a") None) table_9_10
     = Ok "10"%string
  /\ edit_date (instance (save 5 (sample_new 9 (Some "org-a") None)
                            table_9_10)) = Some 5
  /\ uuid (instance (save 5 (sample_new 9 (Some "org-a") None) table_9_10))
     = 9%N.
Proof.
  split; [reflexivity|]. split; [reflexivity|].
  destruct (save_keeps_other_fields 5 (sample_new 9 (Some "org-a") None)
              table_9_10) as ((Hu & _) & _ & He & _).
  split; [|exact Hu].
  apply He. right. now exists "10"%string.
Defined.
